(** * si2a-dashboard: the incident analytics core of [app.py]

    A shallow embedding of the pure parts of the route handlers of
    [src/app.py]: gap filling and z-score anomalies
    ([anomalies_incidents]), the linear-trend forecast
    ([forecast_incidents]), the fallback playbook ([generate_playbook]),
    the executive summary ([generate_ai_summary]), the policy
    classifier ([check_compliance], a SQL [CASE] expression), the roles
    ([get_user_role], [require_role], [whoami]), the POST branch of
    [evidence_endpoint], the ratings of [submit_feedback] and the mock
    trends of [get_trends].

    Conventions.
    - A calendar date is its day ordinal, a [Z]; [timedelta(days=i)] is
      [+ i] and [(a - b).days] is [a - b].
    - A data frame of the aggregation query is the list of its rows
      [(date, incident_count)], in row order.
    - A pandas [Series] is the association list of its [(label, value)]
      pairs, in index order; [.loc] is a lookup by label.
    - Python and numpy floats are idealised as exact numbers: reals where
      the code takes a square root (the anomaly detector), rationals where
      it only adds, multiplies, divides and rounds (the forecaster). The
      not-a-number and infinite values of numpy are kept, and so is the
      missing value of pandas' nullable integer columns, as they decide
      what the anomaly detector does on degenerate input.
    - Strings are byte strings, the UTF-8 of Python's [str]; [lower] acts
      on the ASCII letters, [strip] on all the whitespace of Python. *)

From Stdlib Require Import List ZArith Lia Bool Arith.
From Stdlib Require Import Sorting.Sorted.
From Stdlib Require Import Strings.String Strings.Ascii.
From Stdlib Require Import QArith Qround Qabs.
From Stdlib Require Import Reals Lra.
From Stdlib Require Lqa.
From Stdlib Require Import Sorting.Permutation.
Import ListNotations.

Close Scope R_scope.
Close Scope Q_scope.
Open Scope Z_scope.

(** ** Exceptions and results *)

Inductive exn : Type :=
| ValueError   (* pandas: NaT bounds, reindex on duplicate labels *)
| KeyError     (* [.loc] on a label that is not in the index *)
| IndexError   (* [.iloc[-1]] on an empty column *)
| TypeError    (* [float()] of pandas' missing value *)
| AttributeError   (* [.get] or [.lower] of a value that has no such method *)
| BadRequest   (* Flask: [get_json] on a body that is not JSON *)
| ZeroDivisionError.   (* Python float division by zero *)

Inductive result (A : Type) : Type :=
| Ok (a : A)
| Raise (e : exn).

Arguments Ok {A} a.
Arguments Raise {A} e.

Definition bind {A B : Type} (r : result A) (k : A -> result B) : result B :=
  match r with
  | Ok a => k a
  | Raise e => Raise e
  end.

Notation "x <- r ;; k" := (bind r (fun x => k))
  (at level 61, r at next level, right associativity).
Notation "' p <- r ;; k" := (bind r (fun p => k))
  (at level 61, p pattern, r at next level, right associativity).

(** ** Dates, rows and series *)

Module Frame.

Abbreviation date := Z (only parsing).

(** A row of the aggregation query: [(date, incident_count)]. *)
Abbreviation row := (Z * Z)%type (only parsing).
Abbreviation frame := (list (Z * Z)) (only parsing).

(** [df['date'].min()] and [.max()]; [None] is pandas' [NaT] of an empty
    column. *)
Fixpoint date_min (l : list date) : option date :=
  match l with
  | [] => None
  | d :: l' => match date_min l' with
               | None => Some d
               | Some m => Some (Z.min d m)
               end
  end.

Fixpoint date_max (l : list date) : option date :=
  match l with
  | [] => None
  | d :: l' => match date_max l' with
               | None => Some d
               | Some m => Some (Z.max d m)
               end
  end.

(** [pd.date_range(lo, hi, freq='D')]: every day from [lo] to [hi], both
    included; empty when [hi < lo]. *)
Definition date_range (lo hi : date) : list date :=
  map (fun i => lo + Z.of_nat i) (seq 0 (Z.to_nat (hi - lo + 1))).

(** [s.loc[d]] on a series with unique labels. *)
Fixpoint loc {A : Type} (s : list (date * A)) (d : date) : option A :=
  match s with
  | [] => None
  | (d', a) :: s' => if Z.eqb d' d then Some a else loc s' d
  end.

Fixpoint has_dup (l : list date) : bool :=
  match l with
  | [] => false
  | d :: l' => existsb (Z.eqb d) l' || has_dup l'
  end.

(** [.reindex(full_idx)]: the value at each new label, [None] (NaN) where
    the old index has no such label. pandas refuses to reindex an index with
    duplicate labels. *)
Definition reindex (s : list (date * Z)) (idx : list date)
  : result (list (date * option Z)) :=
  if has_dup (map fst s) then Raise ValueError
  else Ok (map (fun d => (d, loc s d)) idx).

(** [.fillna(0)]. *)
Definition fillna (v : Z) (s : list (date * option Z)) : list (date * Z) :=
  map (fun p => (fst p, match snd p with Some c => c | None => v end)) s.

(** Lines 573-575 of [app.py]:
    [full_idx = pd.date_range(df['date'].min(), df['date'].max(), freq='D')],
    [s = df.set_index('date')['incident_count'].reindex(full_idx).fillna(0)].
    [date_range] raises on [NaT] bounds, that is on an empty frame. *)
Definition fill (df : frame) : result (list (date * Z)) :=
  match date_min (map fst df), date_max (map fst df) with
  | Some lo, Some hi =>
      s <- reindex df (date_range lo hi) ;;
      Ok (fillna 0%Z s)
  | _, _ => Raise ValueError
  end.

(** What the specification calls the bounds of the observations. *)
Definition is_min (lo : date) (l : list date) : Prop :=
  In lo l /\ forall d, In d l -> (lo <= d)%Z.

Definition is_max (hi : date) (l : list date) : Prop :=
  In hi l /\ forall d, In d l -> (d <= hi)%Z.

(** A dense series: one entry per day, consecutive days, ascending. *)
Definition dense {A : Type} (s : list (date * A)) : Prop :=
  exists lo, map fst s = map (fun i => lo + Z.of_nat i) (seq 0 (List.length s)).

End Frame.

(** ** AnomalyDetector: lines 576-587 of [anomalies_incidents] *)

Module Anomaly.
Import Frame.
Local Open Scope R_scope.

(** A float64 as numpy has it: a number, an infinity, or not-a-number. *)
Inductive npfloat : Type :=
| NaN
| Inf (neg : bool)
| Fin (r : R).

Definition Rsum (l : list R) : R := fold_right Rplus 0 l.

(** The values of a filled series, as floats. *)
Definition values (s : list (date * Z)) : list R :=
  map (fun p => IZR (snd p)) s.

Definition Rltb (x y : R) : bool := if Rlt_dec x y then true else false.
Definition Rleb (x y : R) : bool := if Rle_dec x y then true else false.
Definition Reqb (x y : R) : bool := if Req_dec_T x y then true else false.

(** [Series.mean()]: sum over count; NaN for no values. *)
Definition np_mean (v : list R) : npfloat :=
  match v with
  | [] => NaN
  | _ => Fin (Rsum v / INR (List.length v))
  end.

(** pandas' [nanvar]: [avg = sum / count], the squared deviations from
    [avg] summed and divided by [count - ddof]; NaN when
    [count <= ddof]. *)
Definition np_var (ddof : nat) (v : list R) : npfloat :=
  let count := List.length v in
  if (count <=? ddof)%nat then NaN
  else
    let avg := Rsum v / INR count in
    let sqr := Rsum (map (fun x => (avg - x) * (avg - x)) v) in
    Fin (sqr / INR (count - ddof)).

Definition np_sqrt (x : npfloat) : npfloat :=
  match x with
  | NaN => NaN
  | Inf true => NaN
  | Inf false => Inf false
  | Fin r => if Rltb r 0 then NaN else Fin (sqrt r)
  end.

(** [Series.std()]: the call in [app.py] passes no [ddof], and pandas'
    default is [ddof=1]. *)
Definition np_std (ddof : nat) (v : list R) : npfloat := np_sqrt (np_var ddof v).
Definition series_std (v : list R) : npfloat := np_std 1 v.

(** What a reduction of a series hands back. [incident_count] comes from
    the warehouse client as a nullable integer column, and stays one through
    [reindex] and [fillna]; a reduction over such a column returns pandas'
    missing value [pd.NA] where the computation gives not-a-number. *)
Inductive scalar : Type :=
| NA
| Value (x : npfloat).

Definition masked_result (x : npfloat) : scalar :=
  match x with
  | NaN => NA
  | _ => Value x
  end.

(** [float(x)] of a reduction's result: [float(pd.NA)] raises. *)
Definition py_float (x : scalar) : result npfloat :=
  match x with
  | NA => Raise TypeError
  | Value v => Ok v
  end.

(** Truth value of a Python float: false for zero only. *)
Definition truthy (x : npfloat) : bool :=
  match x with
  | Fin r => negb (Reqb r 0)
  | _ => true
  end.

(** [x or y]. *)
Definition py_or (x y : npfloat) : npfloat := if truthy x then x else y.

Definition np_sub (a b : npfloat) : npfloat :=
  match a, b with
  | NaN, _ | _, NaN => NaN
  | Fin x, Fin y => Fin (x - y)
  | Inf s, Fin _ => Inf s
  | Fin _, Inf s => Inf (negb s)
  | Inf s, Inf t => if Bool.eqb s t then NaN else Inf s
  end.

(** numpy division: a zero divisor gives an infinity (or NaN for 0/0),
    not an exception. *)
Definition np_div (a b : npfloat) : npfloat :=
  match a, b with
  | NaN, _ | _, NaN => NaN
  | Fin x, Fin y =>
      if Reqb y 0 then (if Reqb x 0 then NaN else Inf (Rltb x 0))
      else Fin (x / y)
  | Fin _, Inf _ => Fin 0
  | Inf s, Fin y => Inf (xorb s (Rltb y 0))
  | Inf _, Inf _ => NaN
  end.

Definition np_abs (a : npfloat) : npfloat :=
  match a with
  | NaN => NaN
  | Inf _ => Inf false
  | Fin x => Fin (Rabs x)
  end.

(** [a >= b]; every comparison with NaN is false. *)
Definition np_ge (a b : npfloat) : bool :=
  match a, b with
  | NaN, _ | _, NaN => false
  | Fin x, Fin y => Rleb y x
  | Inf s, Fin _ => negb s
  | Fin _, Inf t => t
  | Inf s, Inf t => orb (negb s) t
  end.

Record anomaly : Type := {
  a_date : date;
  a_incident_count : Z;
  a_zscore : npfloat
}.

(** [s.loc[d]] as a scalar. *)
Definition loc_scalar {A : Type} (s : list (date * A)) (d : date) : result A :=
  match loc s d with
  | Some a => Ok a
  | None => Raise KeyError
  end.

(** [zscores = (s - mean) / std]. *)
Definition zscores (s : list (date * Z)) (mean std : npfloat)
  : list (date * npfloat) :=
  map (fun p => (fst p, np_div (np_sub (Fin (IZR (snd p))) mean) std)) s.

(** The list comprehension of lines 579-582, over the labels [idx]. *)
Fixpoint anomalies_of (s : list (date * Z)) (zs : list (date * npfloat))
    (idx : list date) : result (list anomaly) :=
  match idx with
  | [] => Ok []
  | d :: idx' =>
      z <- loc_scalar zs d ;;
      if np_ge (np_abs z) (Fin 2) then
        c <- loc_scalar s d ;;
        z' <- loc_scalar zs d ;;
        rest <- anomalies_of s zs idx' ;;
        Ok ({| a_date := d; a_incident_count := c; a_zscore := z' |} :: rest)
      else anomalies_of s zs idx'
  end.

Record detection : Type := {
  d_series : list (date * Z);
  d_anomalies : list anomaly;
  d_mean : npfloat;
  d_std : npfloat
}.

(** Lines 576-587: [mean = float(s.mean())],
    [std = float(s.std()) or 1.0], the z-scores and the two lists. *)
Definition detect (s : list (date * Z)) : result detection :=
  mean <- py_float (masked_result (np_mean (values s))) ;;
  std <- py_float (masked_result (series_std (values s))) ;;
  let std := py_or std (Fin 1) in
  let zs := zscores s mean std in
  anoms <- anomalies_of s zs (map fst s) ;;
  Ok {| d_series := s; d_anomalies := anoms; d_mean := mean; d_std := std |}.

Inductive anomalies_response : Type :=
| RespEmpty                   (* [{'series': [], 'anomalies': []}] *)
| RespOk (d : detection)
| RespError (e : exn).        (* the [except] clause: status 500 *)

(** The body of the handler after the query returned [df]. *)
Definition anomalies_incidents (df : frame) : anomalies_response :=
  match df with
  | [] => RespEmpty
  | _ =>
      match (s <- fill df ;; detect s) with
      | Ok d => RespOk d
      | Raise e => RespError e
      end
  end.

(** The z-score of one count, and the comprehension's contribution of one
    entry of the series: used to state what [anomalies_of] returns. *)
Definition zscore_of (m sd : npfloat) (c : Z) : npfloat :=
  np_div (np_sub (Fin (IZR c)) m) sd.

Definition flag (m sd : npfloat) (p : date * Z) : list anomaly :=
  if np_ge (np_abs (zscore_of m sd (snd p))) (Fin 2)
  then [{| a_date := fst p; a_incident_count := snd p;
           a_zscore := zscore_of m sd (snd p) |}]
  else [].

(** The specification's words, for comparison with the code. *)
Definition arithmetic_mean (v : list R) : R := Rsum v / INR (List.length v).

Definition sum_sq_dev (m : R) (v : list R) : R :=
  Rsum (map (fun x => (x - m) * (x - m)) v).

(** Population standard deviation: divide by N. *)
Definition population_std (v : list R) : R :=
  sqrt (sum_sq_dev (arithmetic_mean v) v / INR (List.length v)).

(** Sample standard deviation: divide by N - 1. *)
Definition sample_std (v : list R) : R :=
  sqrt (sum_sq_dev (arithmetic_mean v) v / (INR (List.length v) - 1)).

Definition effective_std (sd : R) : R := if Reqb sd 0 then 1 else sd.

(** What a detector with standard deviation [sd_of] would return on [s]:
    mean, effective deviation, and exactly the days whose z-score reaches
    2.0 in absolute value, in chronological order. *)
Definition detects_with (sd_of : list R -> R) (s : list (date * Z)) : Prop :=
  let v := values s in
  let m := arithmetic_mean v in
  let eff := effective_std (sd_of v) in
  series_std v = Fin (sd_of v) /\
  exists anoms,
    detect s = Ok {| d_series := s; d_anomalies := anoms;
                     d_mean := Fin m; d_std := Fin eff |} /\
    (forall d c z,
        In {| a_date := d; a_incident_count := c; a_zscore := z |} anoms <->
        In (d, c) s /\ z = Fin ((IZR c - m) / eff) /\
        2 <= Rabs ((IZR c - m) / eff)) /\
    StronglySorted Z.lt (map a_date anoms).

(** Five consecutive days: one incident on each of the first four, six on
    the last. *)
Definition spike_series : list (date * Z) :=
  [(0, 1); (1, 1); (2, 1); (3, 1); (4, 6)]%Z.

End Anomaly.

(** ** TrendForecaster: [forecast_incidents] *)

Module Forecast.
Import Frame.
Local Open Scope Q_scope.

Inductive method : Type := naive | naive_last | linear_trend.

Record point : Type := {
  p_date : date;
  p_predicted_incidents : Q
}.

Record forecast_response : Type := {
  r_history : list (date * Z);
  r_forecast : list point;
  r_method : method
}.

(** [horizon_days = int(request.args.get('days', '14'))] followed by
    [horizon_days = max(1, min(horizon_days, 60))]. The argument is the
    parsed parameter, [None] when the request has none. *)
Definition horizon (days : option Z) : Z :=
  let horizon_days := match days with Some d => d | None => 14%Z end in
  Z.max 1 (Z.min horizon_days 60).

(** [df.sort_values('date')], as a stable insertion sort. *)
Fixpoint insert_row (r : row) (l : frame) : frame :=
  match l with
  | [] => [r]
  | r' :: l' => if (fst r <=? fst r')%Z then r :: l else r' :: insert_row r l'
  end.

Fixpoint sort_values (df : frame) : frame :=
  match df with
  | [] => []
  | r :: l => insert_row r (sort_values l)
  end.

Definition Qsum (l : list Q) : Q := fold_right Qplus 0 l.

(** Elementwise product of two columns. *)
Definition mul_cols (a b : list Q) : list Q :=
  map (fun p => fst p * snd p) (combine a b).

(** [col.iloc[-1]]. *)
Fixpoint iloc_last {A : Type} (l : list A) : result A :=
  match l with
  | [] => Raise IndexError
  | [x] => Ok x
  | _ :: l' => iloc_last l'
  end.

(** Division of Python floats. *)
Definition py_div (a b : Q) : result Q :=
  if Qeq_bool b 0 then Raise ZeroDivisionError else Ok (a / b).

(** [max(a, b)] of Python: the second argument only when it is strictly
    greater. *)
Definition py_max (a b : Q) : Q := if Qlt_le_dec a b then b else a.

(** Round to the nearest integer, ties to even. *)
Definition round_half_even (q : Q) : Z :=
  let f := Qfloor q in
  match Qcompare (q - inject_Z f) (1 # 2) with
  | Lt => f
  | Gt => (f + 1)%Z
  | Eq => if Z.even f then f else (f + 1)%Z
  end.

(** [round(q, 2)]. *)
Definition py_round2 (q : Q) : Q := Qmake (round_half_even (q * 100)) 100.

(** The time index [df['t'] = range(len(df))]. *)
Definition t_index (n : nat) : list Z := map Z.of_nat (seq 0 n).

Definition denominator (t : list Q) : Q :=
  let n := inject_Z (Z.of_nat (List.length t)) in
  n * Qsum (mul_cols t t) - Qsum t * Qsum t.

(** Lines 626-640: the least-squares line through [(t, y)], or its
    fallback. *)
Definition fit (t y : list Q) : result (Q * Q * method) :=
  y_last <- iloc_last y ;;
  let n := inject_Z (Z.of_nat (List.length t)) in
  let sum_t := Qsum t in
  let sum_y := Qsum y in
  let sum_tt := Qsum (mul_cols t t) in
  let sum_ty := Qsum (mul_cols t y) in
  let denom := n * sum_tt - sum_t * sum_t in
  if Qeq_bool denom 0 then
    intercept <- (if Qeq_bool n 0 then Ok y_last else py_div sum_y n) ;;
    Ok (0, intercept, naive_last)
  else
    slope <- py_div (n * sum_ty - sum_t * sum_y) denom ;;
    intercept <- py_div (sum_y - slope * sum_t) n ;;
    Ok (slope, intercept, linear_trend).

(** Lines 642-646: the loop over [range(1, horizon_days + 1)]. *)
Definition project (slope intercept : Q) (start_t : Z) (last_date : date)
    (horizon_days : Z) : list point :=
  map (fun k =>
         let i := Z.of_nat k in
         let ti := (start_t + i)%Z in
         let pred := py_max 0 (slope * inject_Z ti + intercept) in
         {| p_date := (last_date + i)%Z;
            p_predicted_incidents := py_round2 pred |})
      (seq 1 (Z.to_nat horizon_days)).

(** Lines 612-618: the flat forecast for an empty frame. *)
Definition flat_forecast (end_date : date) (horizon_days : Z) : list point :=
  let base := 5 in
  map (fun k =>
         {| p_date := (end_date + (Z.of_nat k + 1))%Z;
            p_predicted_incidents := base |})
      (seq 0 (Z.to_nat horizon_days)).

(** The body of the handler: [days] is the request parameter, [now] the
    date of [datetime.now()], [df] the rows the query returned. *)
Definition forecast_incidents (days : option Z) (now : date) (df : frame)
  : result forecast_response :=
  let horizon_days := horizon days in
  let end_date := now in
  match df with
  | [] =>
      Ok {| r_history := [];
            r_forecast := flat_forecast end_date horizon_days;
            r_method := naive |}
  | _ =>
      let df := sort_values df in
      let df_t := t_index (List.length df) in
      let y := map (fun r => inject_Z (snd r)) df in
      let t := map inject_Z df_t in
      '(slope, intercept, method) <- fit t y ;;
      start_t <- iloc_last df_t ;;
      last_date <- iloc_last (map fst df) ;;
      Ok {| r_history := df;
            r_forecast := project slope intercept start_t last_date horizon_days;
            r_method := method |}
  end.

(** The specification's words, for comparison with the code. *)
Definition spec_predicted (slope intercept : Q) (ti : Z) : Q :=
  py_max 0 (py_round2 (slope * inject_Z ti + intercept)).

Definition spec_mean (y : list Q) : Q :=
  Qsum y / inject_Z (Z.of_nat (List.length y)).

Definition ols_slope (t y : list Q) : Q :=
  let n := inject_Z (Z.of_nat (List.length t)) in
  (n * Qsum (mul_cols t y) - Qsum t * Qsum y) / denominator t.

Definition ols_intercept (t y : list Q) : Q :=
  let n := inject_Z (Z.of_nat (List.length t)) in
  (Qsum y - ols_slope t y * Qsum t) / n.

(** The residuals of the line [slope * t + intercept] on the data. *)
Definition residuals (slope intercept : Q) (t y : list Q) : list Q :=
  map (fun p => snd p - (slope * fst p + intercept)) (combine t y).

Definition Zsum (l : list Z) : Z := fold_right Z.add 0%Z l.

(** The columns the handler fits, for a frame sorted by date. *)
Definition y_col (df : frame) : list Q := map (fun r => inject_Z (snd r)) df.
Definition t_col (df : frame) : list Q := map inject_Z (t_index (List.length df)).

End Forecast.

(** ** Strings *)

Module Str.
Local Open Scope string_scope.

(** [str.lower()] on ASCII (and SQL's [LOWER]). *)
Definition lower_ascii (c : ascii) : ascii :=
  let n := nat_of_ascii c in
  if ((65 <=? n) && (n <=? 90))%nat then ascii_of_nat (n + 32) else c.

Fixpoint lower (s : string) : string :=
  match s with
  | EmptyString => EmptyString
  | String c s' => String (lower_ascii c) (lower s')
  end.

Fixpoint starts_with (needle hay : string) : bool :=
  match needle, hay with
  | EmptyString, _ => true
  | String _ _, EmptyString => false
  | String a n', String b h' => Ascii.eqb a b && starts_with n' h'
  end.

(** [needle in hay] of Python; SQL's [hay LIKE '%needle%']. *)
Fixpoint contains (needle hay : string) : bool :=
  starts_with needle hay ||
  match hay with
  | EmptyString => false
  | String _ h' => contains needle h'
  end.

(** [needle in xs] for a list of strings. *)
Definition mem (needle : string) (xs : list string) : bool :=
  existsb (String.eqb needle) xs.

(** The [sep.join(lines)] of Python. *)
Fixpoint join (sep : string) (lines : list string) : string :=
  match lines with
  | [] => ""
  | [l] => l
  | l :: ls => l ++ sep ++ join sep ls
  end.

End Str.

(** ** PlaybookSynthesizer: the fallback of [generate_playbook] *)

Module Playbook.
Import Str.
Local Open Scope string_scope.

Record playbook_step : Type := {
  step : string;
  owner : string;
  eta_hours : Z;
  priority : string;
  tooling : string
}.

(** Lines 491-499: the template. *)
Definition base_template : list playbook_step :=
  [ {| step := "Establish incident channel and assign roles"; owner := "IR Lead";
       eta_hours := 1; priority := "P1"; tooling := "Chat/ITSM" |};
    {| step := "Contain affected accounts/systems"; owner := "SecOps";
       eta_hours := 2; priority := "P1"; tooling := "EDR/IAM" |};
    {| step := "Collect evidence and snapshot logs"; owner := "SecOps";
       eta_hours := 2; priority := "P2"; tooling := "SIEM/EDR" |};
    {| step := "Root cause analysis and scope"; owner := "IR Lead";
       eta_hours := 4; priority := "P2"; tooling := "SIEM" |};
    {| step := "Remediate misconfigurations/rotate secrets"; owner := "IAM Admin";
       eta_hours := 3; priority := "P2"; tooling := "IAM/Secrets" |};
    {| step := "User comms and awareness"; owner := "IT Comms";
       eta_hours := 2; priority := "P3"; tooling := "Email/LMS" |};
    {| step := "Post‑incident review and lessons learned"; owner := "IR Lead";
       eta_hours := 2; priority := "P3"; tooling := "Docs/ITSM" |} ]%list.

(** The last step of the template. *)
Definition review_step : playbook_step :=
  {| step := "Post‑incident review and lessons learned"; owner := "IR Lead";
     eta_hours := 2; priority := "P3"; tooling := "Docs/ITSM" |}.

(** Line 504: the inserted step. *)
Definition mfa_step : playbook_step :=
  {| step := "Force password reset & MFA re‑verification"; owner := "IAM Admin";
     eta_hours := 1; priority := "P1"; tooling := "IAM" |}.

(** [l[i] = f(l[i])]: an update in place; Python raises [IndexError] out
    of range, which the seven-step template never is at index 1. *)
Fixpoint update_at {A : Type} (i : nat) (f : A -> A) (l : list A) : list A :=
  match l, i with
  | [], _ => []
  | a :: l', O => f a :: l'
  | a :: l', S i' => a :: update_at i' f l'
  end.

(** [l.insert(i, x)]: past the end it appends. *)
Definition list_insert {A : Type} (i : nat) (x : A) (l : list A) : list A :=
  (firstn i l ++ x :: skipn i l)%list.

(** A value read from the data frame: a string, or something else
    ([None], NaN), for which [isinstance(v, str)] is false. *)
Definition pyval := option string.

(** [isinstance(sev, str) and sev.lower() == 'critical']. *)
Definition is_critical (sev : pyval) : bool :=
  match sev with
  | Some s => String.eqb (lower s) "critical"
  | None => false
  end.

(** [isinstance(category, str) and 'authentication' in category]. *)
Definition is_authentication (category : pyval) : bool :=
  match category with
  | Some c => contains "authentication" c
  | None => false
  end.

(** Lines 491-504: the list [base] after the two conditional updates. *)
Definition playbook_base (sev category : pyval) : list playbook_step :=
  let base := base_template in
  let base :=
    if is_critical sev
    then update_at 1 (fun st => {| step := step st; owner := owner st;
                                   eta_hours := 1; priority := "P1";
                                   tooling := tooling st |}) base
    else base in
  if is_authentication category then list_insert 1 mfa_step base else base.

(** Line 505: [playbook = base[:7]]. *)
Definition fallback_playbook (sev category : pyval) : list playbook_step :=
  firstn 7 (playbook_base sev category).

(** What the fallback query gave: lines 479-489. *)
Inductive incident_info : Type :=
| QueryFailed
| NoRow
| Row (severity category : pyval).

Definition fallback_inputs (info : incident_info) : pyval * pyval :=
  match info with
  | QueryFailed => (Some "medium", Some "general")
  | NoRow => (Some "medium", Some "general")
  | Row sev category => (sev, category)
  end.

(** The insertion the specification describes: the new step second, the
    containment step right after it. *)
Definition mfa_step_inserted (sev : pyval) (category : string) : Prop :=
  nth_error (fallback_playbook sev (Some category)) 1 = Some mfa_step /\
  exists st, nth_error (fallback_playbook sev (Some category)) 2 = Some st /\
             step st = "Contain affected accounts/systems".

Inductive provider : Type := vertex_ai | fallback.

(** The handler: [ai] is the table the generative call returned, [None]
    when it raised or was empty. *)
Definition generate_playbook (ai : option (list playbook_step))
    (info : incident_info) : list playbook_step * provider :=
  match ai with
  | Some (r :: rows) => ((r :: rows)%list, vertex_ai)
  | _ => let '(sev, category) := fallback_inputs info in
         (fallback_playbook sev category, fallback)
  end.

End Playbook.

(** ** The fallback playbook with its dictionaries in the heap

    The template is a list of dictionaries that the handler updates in
    place. Here the dictionaries are objects of the interpreter's heap, which
    outlives the call, and the list holds references to them. *)

Module PlaybookHeap.
Import Playbook.

Definition heap := list playbook_step.
Definition ref := nat.

Definition M (A : Type) : Type := heap -> A * heap.

Definition ret {A : Type} (a : A) : M A := fun h => (a, h).

Definition andthen {A B : Type} (m : M A) (k : A -> M B) : M B :=
  fun h => let (a, h') := m h in k a h'.

(** A dictionary literal: a new object. *)
Definition new_dict (d : playbook_step) : M ref :=
  fun h => (List.length h, h ++ [d]).

(** A list literal of dictionary literals, evaluated left to right. *)
Fixpoint new_dicts (ds : list playbook_step) : M (list ref) :=
  match ds with
  | [] => ret []
  | d :: ds' =>
      andthen (new_dict d) (fun r =>
      andthen (new_dicts ds') (fun rs => ret (r :: rs)))
  end.

(** [obj[key] = v] on the dictionary at [r]. *)
Definition set_item (r : ref) (f : playbook_step -> playbook_step) : M unit :=
  fun h => (tt, update_at r f h).

(** [base[i][key] = v]; an index out of range leaves the heap as it is
    (Python raises, the template is never that short). *)
Definition set_item_at (base : list ref) (i : nat)
    (f : playbook_step -> playbook_step) : M unit :=
  match nth_error base i with
  | Some r => set_item r f
  | None => ret tt
  end.

(** [jsonify]: the dictionaries behind the references, as they are now. *)
Definition dump (l : list ref) : M (list playbook_step) :=
  fun h => (flat_map (fun r => match nth_error h r with
                               | Some d => [d]
                               | None => []
                               end) l, h).

Definition set_eta_hours (v : Z) (st : playbook_step) : playbook_step :=
  {| step := step st; owner := owner st; eta_hours := v;
     priority := priority st; tooling := tooling st |}.

Definition set_priority (v : string) (st : playbook_step) : playbook_step :=
  {| step := step st; owner := owner st; eta_hours := eta_hours st;
     priority := v; tooling := tooling st |}.

(** Lines 491-506, statement by statement. *)
Definition fallback_playbook_run (sev category : pyval)
  : M (list playbook_step) :=
  andthen (new_dicts base_template) (fun base =>
  andthen (if is_critical sev
           then andthen (set_item_at base 1 (set_eta_hours 1)) (fun _ =>
                         set_item_at base 1 (set_priority "P1"))
           else ret tt) (fun _ =>
  andthen (if is_authentication category
           then andthen (new_dict mfa_step) (fun r =>
                         ret (list_insert 1 r base))
           else ret base) (fun base =>
  let playbook := firstn 7 base in
  dump playbook))).

End PlaybookHeap.

(** ** ComplianceClassifier: the [CASE] expressions of [check_compliance] *)

Module Compliance.
Import Str.
Local Open Scope string_scope.

(** The columns of [si2a_gold.incidents] the query reads; [None] is SQL's
    [NULL]. *)
Record incident : Type := {
  description : option string;
  severity : option string;
  tags : list string
}.

(** SQL's three-valued logic. *)
Definition sql_bool := option bool.

Definition sql_or (a b : sql_bool) : sql_bool :=
  match a, b with
  | Some true, _ | _, Some true => Some true
  | Some false, Some false => Some false
  | _, _ => None
  end.

(** ['kw' IN UNNEST(i.tags)]. *)
Definition in_unnest (kw : string) (ts : list string) : sql_bool :=
  Some (mem kw ts).

(** [LOWER(i.description) LIKE '%kw%']. *)
Definition lower_like (d : option string) (kw : string) : sql_bool :=
  match d with
  | Some s => Some (contains kw (lower s))
  | None => None
  end.

(** [i.severity = 'v']. *)
Definition sql_eq (a : option string) (v : string) : sql_bool :=
  match a with
  | Some s => Some (String.eqb s v)
  | None => None
  end.

(** A [WHEN] branch is taken when its condition is [TRUE]. *)
Definition is_true (b : sql_bool) : bool :=
  match b with
  | Some true => true
  | _ => false
  end.

(** Lines 759-764. *)
Definition applicable_policy (i : incident) : string :=
  if is_true (sql_or (in_unnest "mfa" (tags i)) (lower_like (description i) "mfa"))
  then "MFA Policy"
  else if is_true (sql_or (in_unnest "saas" (tags i)) (lower_like (description i) "saas"))
  then "SaaS Usage Policy"
  else if is_true (sql_or (in_unnest "access" (tags i)) (lower_like (description i) "access"))
  then "Access Control Policy"
  else "General Security Policy".

(** Lines 765-771. *)
Definition compliance_assessment (i : incident) : string :=
  if is_true (sql_eq (severity i) "critical") then "High Risk - Immediate Action Required"
  else if is_true (sql_eq (severity i) "high") then "High Risk - Escalate to Senior Team"
  else if is_true (sql_eq (severity i) "medium") then "Medium Risk - Standard Response"
  else if is_true (sql_eq (severity i) "low") then "Low Risk - Monitor and Document"
  else "Minimal Risk - Routine Handling".

Definition check_compliance (i : incident) : string * string :=
  (applicable_policy i, compliance_assessment i).

(** The specification's words: an ordered rule table, first match wins. *)
Definition policy_rules : list (string * string) :=
  [ ("mfa", "MFA Policy");
    ("saas", "SaaS Usage Policy");
    ("access", "Access Control Policy") ]%list.

Definition rule_matches (i : incident) (kw : string) : bool :=
  mem kw (tags i) ||
  match description i with
  | Some d => contains kw (lower d)
  | None => false
  end.

Fixpoint first_match (i : incident) (rules : list (string * string)) : string :=
  match rules with
  | [] => "General Security Policy"
  | (kw, policy) :: rules' =>
      if rule_matches i kw then policy else first_match i rules'
  end.

Definition severity_table : list (string * string) :=
  [ ("critical", "High Risk - Immediate Action Required");
    ("high", "High Risk - Escalate to Senior Team");
    ("medium", "Medium Risk - Standard Response");
    ("low", "Low Risk - Monitor and Document") ]%list.

Definition assessment_of_severity (sev : option string) : string :=
  match sev with
  | Some s =>
      match find (fun p => String.eqb (fst p) s) severity_table with
      | Some (_, a) => a
      | None => "Minimal Risk - Routine Handling"
      end
  | None => "Minimal Risk - Routine Handling"
  end.

End Compliance.

(** ** IncidentNarrator: [generate_ai_summary] *)

Module Narrator.
Import Str.
Local Open Scope string_scope.

(** A reading of the wall clock, [datetime.now()]. *)
Record datetime : Type := {
  dt_date : Z;      (* day ordinal *)
  dt_micros : Z     (* microseconds since midnight *)
}.

(** The row of the incident, [df.iloc[0].to_dict()]; [None] is a missing
    value ([None] or NaN), for [tags] anything that is not a Python list:
    the [isinstance(tags_val, list)] gate of lines 246-250 lets nothing else
    through, in particular not the numpy array in which the warehouse client
    delivers an ARRAY column. [created_at] is given by its [str()]. *)
Record incident_row : Type := {
  title : option string;
  description : option string;
  severity : option string;
  status : option string;
  category : option string;
  business_impact : option string;
  root_cause : option string;
  resolution : option string;
  created_at : option string;
  risk_score : option Q;
  affected_users : option Z;
  resolution_time_hours : option Q;
  tags : option (list string)
}.

Record summary_response : Type := {
  r_incident_id : string;
  r_summary : string;
  r_generated_at : datetime
}.

(** The local function [val]. *)
Definition val {A : Type} (v : option A) (default : A) : A :=
  match v with
  | Some x => x
  | None => default
  end.

Definition newline : string := String (ascii_of_nat 10) EmptyString.

Definition risk_band (risk_score_float : Q) : string :=
  if Qle_bool (9 # 10) risk_score_float then "Very High"
  else if Qle_bool (7 # 10) risk_score_float then "High"
  else if Qle_bool (5 # 10) risk_score_float then "Moderate"
  else "Low".

(** The dictionary of lines 253-258 with its [.get] default. *)
Definition severity_text (severity : string) : string :=
  if String.eqb severity "critical"
  then "Critical – immediate containment and executive comms required"
  else if String.eqb severity "high"
  then "High – rapid response, escalate to senior on-call"
  else if String.eqb severity "medium"
  then "Medium – standard response within 24–48h"
  else if String.eqb severity "low"
  then "Low – monitor and document"
  else "Standard response".

(** Lines 261-269. *)
Definition suggestions (severity category description : string)
    (tags_list : list string) : list string :=
  ((if String.eqb severity "critical" || String.eqb severity "high"
    then ["Initiate incident command and page senior on-call";
          "Contain blast radius and revoke suspicious access"]
    else []) ++
   (if contains "authentication" category
       || contains "mfa" (lower description)
       || mem "mfa" (map lower tags_list)
    then ["Force password reset; enforce MFA re-verification for affected users"]
    else []) ++
   (if existsb (fun k => contains k category)
               ["data_leak"; "credential"; "insider"; "third_party"]
    then ["Start data exposure assessment and legal/compliance review"]
    else []) ++
   ["Document findings and schedule post-incident review within 72 hours"])%list.

Section Summary.

Local Notation "a +++ b" := (String.append a b)
  (at level 60, right associativity).

(** Python's own formatting, not code of this repository. *)
Variable str_title : string -> string.     (* [str.title()] *)
Variable str_of_int : Z -> string.         (* an [int] in an f-string *)
Variable str_of_float : Q -> string.       (* a [float] in an f-string *)
Variable format_2f : Q -> string.          (* [{x:.2f}] *)

Definition nonempty (s : string) : bool :=
  match s with
  | EmptyString => false
  | _ => true
  end.

(** Lines 213-297: the text of the summary. *)
Definition summary_text (incident_id : string) (row : incident_row) : string :=
  let title := val (title row) "Untitled Incident" in
  let description := val (description row) "" in
  let severity := lower (val (severity row) "unknown") in
  let status := str_title (val (status row) "unknown") in
  let category := val (category row) "general" in
  let business_impact := val (business_impact row) "Not specified" in
  let root_cause := val (root_cause row) "Undetermined" in
  let resolution := val (resolution row) "In progress" in
  let created_str :=
    match created_at row with
    | Some c => if nonempty c then substring 0 19 c else "N/A"
    | None => "N/A"
    end in
  let risk_score_float := val (risk_score row) 0%Q in
  let affected_users_int := val (affected_users row) 0%Z in
  let rt_hours_float := val (resolution_time_hours row) 0%Q in
  let tags_list := val (tags row) [] in
  let summary_lines :=
    ([ "EXECUTIVE SUMMARY — " +++ incident_id;
       "";
       "Title: " +++ title;
       "Severity: " +++ str_title severity +++ " (" +++ severity_text severity +++ ")";
       "Status: " +++ status;
       "Category: " +++ category;
       "Created: " +++ created_str;
       "Affected Users: " +++ str_of_int affected_users_int;
       "Estimated Resolution Time: " +++ str_of_float rt_hours_float +++ " hours";
       "Risk: " +++ format_2f risk_score_float +++ " (" +++ risk_band risk_score_float +++ ")";
       "Business Impact: " +++ business_impact ] ++
     (if nonempty description
      then [""; "Context:"; "- " +++ description] else []) ++
     (if nonempty root_cause && negb (String.eqb root_cause "Undetermined")
      then [""; "Likely Root Cause:"; "- " +++ root_cause] else []) ++
     (if nonempty resolution && negb (String.eqb resolution "In progress")
      then [""; "Actions Taken:"; "- " +++ resolution] else []) ++
     [""; "Recommended Next Actions:"] ++
     map (fun s => "- " +++ s)
         (suggestions severity category description tags_list))%list in
  join newline summary_lines.

(** The handler, for the row the query returned and the clock reading
    [now]. *)
Definition generate_ai_summary (now : datetime) (incident_id : string)
    (row : incident_row) : summary_response :=
  {| r_incident_id := incident_id;
     r_summary := summary_text incident_id row;
     r_generated_at := now |}.

End Summary.

End Narrator.

(** ** Roles: [get_user_role], [require_role], [whoami] and the POST
    branch of [evidence_endpoint] *)

Module Rbac.
Import Str.
Local Open Scope string_scope.

(** The three places a request can name a role in; [None] when the
    header, cookie or query parameter is absent. *)
Record request : Type := {
  header_role : option string;    (* [X-User-Role] *)
  cookie_role : option string;    (* [user_role] *)
  arg_role : option string        (* [?role=] *)
}.

(** [x or y] where [y] is a string: [x] when it is a non-empty string. *)
Definition or_else (x : option string) (y : string) : string :=
  match x with
  | Some (String c s) => String c s
  | _ => y
  end.

(** Strings are Python's [str] in UTF-8, a character being one to four
    bytes. The whitespace of [str.strip()] is U+0009-000D, U+001C-0020,
    U+0085, U+00A0, U+1680, U+2000-200A, U+2028, U+2029, U+202F, U+205F and
    U+3000: one, two or three bytes. *)
Definition is_space (c : ascii) : bool :=
  let n := nat_of_ascii c in
  (((9 <=? n) && (n <=? 13)) || ((28 <=? n) && (n <=? 32)))%nat.

(** U+0085 is C2 85 and U+00A0 is C2 A0. *)
Definition is_space2 (c1 c2 : ascii) : bool :=
  let n1 := nat_of_ascii c1 in
  let n2 := nat_of_ascii c2 in
  ((n1 =? 194) && ((n2 =? 133) || (n2 =? 160)))%nat.

(** U+1680 is E1 9A 80; U+2000-200A are E2 80 80 to E2 80 8A; U+2028,
    U+2029 and U+202F are E2 80 A8, E2 80 A9 and E2 80 AF; U+205F is
    E2 81 9F; U+3000 is E3 80 80. *)
Definition is_space3 (c1 c2 c3 : ascii) : bool :=
  let n1 := nat_of_ascii c1 in
  let n2 := nat_of_ascii c2 in
  let n3 := nat_of_ascii c3 in
  (((n1 =? 225) && (n2 =? 154) && (n3 =? 128)) ||
   ((n1 =? 226) && (n2 =? 128) &&
    (((128 <=? n3) && (n3 <=? 138)) || (n3 =? 168) || (n3 =? 169) ||
     (n3 =? 175))) ||
   ((n1 =? 226) && (n2 =? 129) && (n3 =? 159)) ||
   ((n1 =? 227) && (n2 =? 128) && (n3 =? 128)))%nat.

(** Whitespace dropped from the front of the bytes; with [back], the bytes
    are those of a reversed string, and so are the bytes of each
    character. *)
Fixpoint strip_front (back : bool) (s : string) : string :=
  match s with
  | EmptyString => EmptyString
  | String c1 s1 =>
      if is_space c1 then strip_front back s1
      else
        match s1 with
        | EmptyString => s
        | String c2 s2 =>
            if (if back then is_space2 c2 c1 else is_space2 c1 c2)
            then strip_front back s2
            else
              match s2 with
              | EmptyString => s
              | String c3 s3 =>
                  if (if back then is_space3 c3 c2 c1 else is_space3 c1 c2 c3)
                  then strip_front back s3
                  else s
              end
        end
  end.

Definition reverse (s : string) : string :=
  string_of_list_ascii (rev (list_ascii_of_string s)).

Definition lstrip (s : string) : string := strip_front false s.

Definition rstrip (s : string) : string :=
  reverse (strip_front true (reverse s)).

Definition strip (s : string) : string := rstrip (lstrip s).

Definition known_roles : list string := ["viewer"; "analyst"; "admin"]%list.

(** Lines 45-49. [lower] maps the letters A to Z only; of the other
    characters [str.lower()] sends none but the Kelvin sign to an ASCII
    letter, and that letter, k, is in none of the three names, so that the
    test of line 47 falls the same way. *)
Definition get_user_role (req : request) : string :=
  let role :=
    lower (strip (or_else (header_role req)
                 (or_else (cookie_role req)
                 (or_else (arg_role req) "viewer")))) in
  if mem role known_roles then role else "viewer".

Inductive guarded (A : Type) : Type :=
| Forbidden (role : string)     (* status 403 *)
| Allowed (a : A).

Arguments Forbidden {A} role.
Arguments Allowed {A} a.

(** Lines 51-61: the decorator, applied to a handler [fn]. *)
Definition require_role {A : Type} (allowed_roles : list string)
    (fn : request -> A) (req : request) : guarded A :=
  let role := get_user_role req in
  if negb (mem role allowed_roles) then Forbidden role else Allowed (fn req).

(** Lines 85-90: the capability table of [whoami] with its [.get]
    default. *)
Definition capabilities (role : string) : list string :=
  if String.eqb role "viewer" then ["read"]%list
  else if String.eqb role "analyst"
  then ["read"; "write_evidence"; "generate_playbook"; "feedback"]%list
  else if String.eqb role "admin"
  then ["read"; "write_evidence"; "generate_playbook"; "feedback"; "admin"]%list
  else ["read"]%list.

Definition whoami (req : request) : string * list string :=
  let role := get_user_role req in
  (role, capabilities role).

(** A float of Python. *)
Inductive pyfloat : Type :=
| FNan
| FInf (negative : bool)
| FVal (q : Q).

(** A JSON value as [request.get_json] delivers it: [None], a [bool], an
    [int], a [float], a [str], a [list] or a [dict], the latter by its
    items, their keys distinct. *)
#[local] Set Warnings "-register-all".

Inductive jvalue : Type :=
| VNull
| VBool (b : bool)
| VInt (z : Z)
| VFloat (x : pyfloat)
| VString (s : string)
| VArray (items : list jvalue)
| VObject (items : list (string * jvalue)).

#[local] Set Warnings "register-all".

(** The truth value of Python. *)
Definition truthy (v : jvalue) : bool :=
  match v with
  | VNull => false
  | VBool b => b
  | VInt z => negb (z =? 0)%Z
  | VFloat (FVal q) => negb (Qnum q =? 0)%Z
  | VFloat _ => true
  | VString EmptyString => false
  | VString _ => true
  | VArray []%list => false
  | VArray _ => true
  | VObject []%list => false
  | VObject _ => true
  end.

(** [x or y] for a value [x] that may be absent. *)
Definition value_or (x : option jvalue) (y : jvalue) : jvalue :=
  match x with
  | Some v => if truthy v then v else y
  | None => y
  end.

(** [d.get(key)] on the items of a [dict]. *)
Fixpoint get (key : string) (items : list (string * jvalue)) : option jvalue :=
  match items with
  | []%list => None
  | ((k, v) :: rest)%list => if String.eqb key k then Some v else get key rest
  end.

(** [payload.get(key)]: [AttributeError] when [payload] is no [dict]. *)
Definition payload_get (payload : jvalue) (key : string)
  : result (option jvalue) :=
  match payload with
  | VObject items => Ok (get key items)
  | _ => Raise AttributeError
  end.

(** [v.lower()]: [AttributeError] when [v] is no [str]. *)
Definition value_lower (v : jvalue) : result string :=
  match v with
  | VString s => Ok (lower s)
  | _ => Raise AttributeError
  end.

Record evidence_row : Type := {
  e_evidence_id : jvalue;
  e_incident_id : string;
  e_object_uri : jvalue;
  e_object_type : string;
  e_description : jvalue;
  e_tags : jvalue;
  e_uploader : jvalue;
  e_created_at : string
}.

(** What [client.insert_rows_json] did. *)
Inductive insert_outcome : Type :=
| Inserted            (* no errors *)
| InsertErrors        (* a non-empty list of errors *)
| InsertRaised.       (* an exception *)

Inductive post_response : Type :=
| PostNoClient                      (* 500, line 659 *)
| PostForbidden (role : string)     (* 403 *)
| PostInsertFailed                  (* 500, [insert_failed] *)
| PostError                         (* 500, the [except] clause *)
| PostOk (evidence_id : jvalue).    (* [{'status': 'ok', ...}] *)

(** Line 679: [request.get_json(force=True) or {}]; [body] is [None] when
    the body of the request is not JSON, and [get_json] raises. *)
Definition payload_of (body : option jvalue) : result jvalue :=
  match body with
  | None => Raise BadRequest
  | Some v => Ok (if truthy v then v else VObject []%list)
  end.

(** Lines 679-696: the row built from the body; [uuid] is [str(uuid4())]
    and [now] is [datetime.utcnow().isoformat()]. *)
Definition evidence_row_of (incident_id : string) (body : option jvalue)
    (uuid now : string) : result evidence_row :=
  payload <- payload_of body ;;
  evidence_id <- payload_get payload "evidence_id" ;;
  let evidence_id := value_or evidence_id (VString uuid) in
  object_uri <- payload_get payload "object_uri" ;;
  let object_uri := value_or object_uri (VString "") in
  object_type <- payload_get payload "object_type" ;;
  object_type <- value_lower (value_or object_type (VString "generic")) ;;
  description <- payload_get payload "description" ;;
  let description := value_or description (VString "") in
  tags <- payload_get payload "tags" ;;
  let tags := value_or tags (VArray []%list) in
  uploader <- payload_get payload "uploader" ;;
  let uploader := value_or uploader (VString "web-user") in
  Ok {| e_evidence_id := evidence_id;
        e_incident_id := incident_id;
        e_object_uri := object_uri;
        e_object_type := object_type;
        e_description := description;
        e_tags := tags;
        e_uploader := uploader;
        e_created_at := now |}.

(** Lines 658-659, 674-700 and 701-708 for a POST: the response, and the
    rows handed to [insert_rows_json]. [client] tells whether the server
    has a warehouse client. *)
Definition evidence_post (client : bool) (req : request)
    (incident_id : string) (body : option jvalue) (uuid now : string)
    (outcome : insert_outcome) : post_response * list evidence_row :=
  if negb client then (PostNoClient, []%list)
  else
    let role := get_user_role req in
    if negb (mem role ["analyst"; "admin"]%list)
    then (PostForbidden role, []%list)
    else
      match evidence_row_of incident_id body uuid now with
      | Raise _ => (PostError, []%list)
      | Ok row =>
          match outcome with
          | Inserted => (PostOk (e_evidence_id row), [row]%list)
          | InsertErrors => (PostInsertFailed, [row]%list)
          | InsertRaised => (PostError, [row]%list)
          end
      end.

(** The field [key] of a body that is an object. *)
Definition body_get (key : string) (body : option jvalue) : option jvalue :=
  match body with
  | Some (VObject items) => get key items
  | _ => None
  end.

End Rbac.

(** ** Ratings: [clamp_int] of [submit_feedback] *)

Module Feedback.

(** A value of the JSON payload. *)
Inductive json : Type :=
| JNull
| JBool (b : bool)
| JInt (z : Z)
| JFloat (q : Q)
| JString (s : string)
| JOther.             (* an array or an object *)

Section Ratings.

(** [int(s)] of a string, Python's own parser: [None] when it raises. *)
Variable int_of_string : string -> option Z.

(** [int(v)]: [None] when it raises. A float is truncated towards
    zero. *)
Definition py_int (v : json) : option Z :=
  match v with
  | JNull => None
  | JBool b => Some (if b then 1 else 0)
  | JInt z => Some z
  | JFloat q => Some (Z.quot (Qnum q) (Zpos (Qden q)))
  | JString s => int_of_string s
  | JOther => None
  end.

(** Lines 720-725. *)
Definition clamp_int (v : json) (lo hi : Z) : Z :=
  let iv := match py_int v with
            | Some iv => iv
            | None => lo
            end in
  Z.max lo (Z.min hi iv).

(** [clamp_int(payload.get(key, 3))] with the default bounds; [None] is a
    payload without the key. *)
Definition rating (field : option json) : Z :=
  clamp_int (match field with
             | Some v => v
             | None => JInt 3
             end) 1 5.

End Ratings.

End Feedback.

(** ** The mock series of [get_trends] *)

Module Trends.
Import Frame.

Record trend_point : Type := {
  t_date : date;
  t_incident_count : Z;
  t_avg_risk_score : Q;
  t_avg_resolution_time : Z
}.

(** Lines 516-517 and 535-545, for [end_date] the date of
    [datetime.now()]. *)
Definition mock_trends (end_date : date) : list trend_point :=
  let start_date := end_date - 30 in
  map (fun k =>
         let i := Z.of_nat k in
         {| t_date := start_date + i;
            t_incident_count := Z.max 0 (5 + (i mod 7) * 2);
            t_avg_risk_score := ((5 # 10) + inject_Z (i mod 5) * (1 # 10))%Q;
            t_avg_resolution_time := 4 + (i mod 8) * 2 |})
      (seq 0 31).

End Trends.

(** ** Totals and order of a series *)

Module Totals.
Import Frame.

(** Rows in ascending order of date, equal dates allowed. *)
Definition by_date (a b : Z * Z) : Prop := fst a <= fst b.

(** The number of incidents a series counts. *)
Definition total_count (s : list (date * Z)) : Z :=
  fold_right Z.add 0 (map snd s).

End Totals.

(** ** Priorities of a playbook *)

Module Priority.
Local Open Scope string_scope.

(** The rank of a priority label, 0 for anything that is not one. *)
Definition priority_rank (p : string) : nat :=
  if String.eqb p "P1" then 1
  else if String.eqb p "P2" then 2
  else if String.eqb p "P3" then 3
  else 0.

End Priority.

(** ** The recommended actions of a row *)

Module NarratorRow.
Import Str Narrator.
Local Open Scope string_scope.

(** The list [suggestions] as [generate_ai_summary] builds it for a row:
    the arguments are the locals of lines 214-217 and 246-250. *)
Definition row_suggestions (row : incident_row) : list string :=
  suggestions (lower (val (severity row) "unknown"))
              (val (category row) "general")
              (val (description row) "")
              (val (tags row) []%list).

End NarratorRow.

(** * Properties *)

Module FrameFacts.
Import Frame.

Lemma is_min_unique l a b : is_min a l -> is_min b l -> a = b.
Proof.
  intros [Ha1 Ha2] [Hb1 Hb2].
  specialize (Ha2 b Hb1). specialize (Hb2 a Ha1). lia.
Qed.

Lemma is_max_unique l a b : is_max a l -> is_max b l -> a = b.
Proof.
  intros [Ha1 Ha2] [Hb1 Hb2].
  specialize (Ha2 b Hb1). specialize (Hb2 a Ha1). lia.
Qed.

Lemma date_min_spec l :
  l <> [] -> exists m, date_min l = Some m /\ is_min m l.
Proof.
  induction l as [|d l IH]; intros Hne; [congruence|].
  destruct l as [|e l'].
  - exists d. simpl. split; [reflexivity|].
    split; [now left|]. intros y [->|[]]. lia.
  - destruct IH as [m [Hm [Hin Hlb]]]; [discriminate|].
    exists (Z.min d m). split.
    + change (date_min (d :: e :: l'))
        with (match date_min (e :: l') with
              | None => Some d | Some m => Some (Z.min d m) end).
      now rewrite Hm.
    + split.
      * destruct (Z.min_spec d m) as [[_ ->]|[_ ->]]; [now left|now right].
      * intros y [->|Hy]; [lia|]. specialize (Hlb y Hy). lia.
Qed.

Lemma date_max_spec l :
  l <> [] -> exists m, date_max l = Some m /\ is_max m l.
Proof.
  induction l as [|d l IH]; intros Hne; [congruence|].
  destruct l as [|e l'].
  - exists d. simpl. split; [reflexivity|].
    split; [now left|]. intros y [->|[]]. lia.
  - destruct IH as [m [Hm [Hin Hub]]]; [discriminate|].
    exists (Z.max d m). split.
    + change (date_max (d :: e :: l'))
        with (match date_max (e :: l') with
              | None => Some d | Some m => Some (Z.max d m) end).
      now rewrite Hm.
    + split.
      * destruct (Z.max_spec d m) as [[_ ->]|[_ ->]]; [now right|now left].
      * intros y [->|Hy]; [lia|]. specialize (Hub y Hy). lia.
Qed.

Lemma date_min_is_min l lo : is_min lo l -> date_min l = Some lo.
Proof.
  intros H. destruct (date_min_spec l) as [m [Hm Hmin]].
  - destruct H as [Hin _]. intros ->. destruct Hin.
  - now rewrite Hm, (is_min_unique _ _ _ Hmin H).
Qed.

Lemma date_max_is_max l hi : is_max hi l -> date_max l = Some hi.
Proof.
  intros H. destruct (date_max_spec l) as [m [Hm Hmax]].
  - destruct H as [Hin _]. intros ->. destruct Hin.
  - now rewrite Hm, (is_max_unique _ _ _ Hmax H).
Qed.

Lemma has_dup_NoDup l : has_dup l = false <-> NoDup l.
Proof.
  induction l as [|d l IH]; simpl.
  - split; [constructor|reflexivity].
  - rewrite orb_false_iff, IH. split.
    + intros [Hex Hnd]. constructor; [|assumption].
      intros Hin. 
      assert (existsb (Z.eqb d) l = true)
        by (apply existsb_exists; exists d; split; [assumption|apply Z.eqb_refl]).
      congruence.
    + intros Hnd. inversion Hnd as [|? ? Hnin Hnd']; subst. split; [|assumption].
      destruct (existsb (Z.eqb d) l) eqn:E; [|reflexivity].
      apply existsb_exists in E. destruct E as [x [Hx Hdx]].
      apply Z.eqb_eq in Hdx. subst x. contradiction.
Qed.

Lemma loc_In A (s : list (date * A)) d a :
  NoDup (map fst s) -> In (d, a) s -> loc s d = Some a.
Proof.
  induction s as [|[d' a'] s IH]; simpl; intros Hnd Hin; [destruct Hin|].
  inversion Hnd as [|? ? Hnin Hnd']; subst.
  destruct Hin as [Heq|Hin].
  - inversion Heq; subst. now rewrite Z.eqb_refl.
  - destruct (Z.eqb_spec d' d) as [->|Hne].
    + exfalso. apply Hnin. apply in_map_iff. now exists (d, a).
    + now apply IH.
Qed.

Lemma loc_None A (s : list (date * A)) d :
  ~ In d (map fst s) -> loc s d = None.
Proof.
  induction s as [|[d' a'] s IH]; simpl; intros Hnin; [reflexivity|].
  destruct (Z.eqb_spec d' d) as [->|Hne].
  - exfalso. apply Hnin. now left.
  - apply IH. intros H. apply Hnin. now right.
Qed.

Lemma date_range_length lo hi :
  Z.of_nat (List.length (date_range lo hi)) = Z.max 0 (hi - lo + 1).
Proof.
  unfold date_range. rewrite length_map, length_seq. lia.
Qed.

Lemma date_range_In lo hi d :
  In d (date_range lo hi) <-> lo <= d <= hi.
Proof.
  unfold date_range. rewrite in_map_iff. split.
  - intros [i [<- Hi]]. apply in_seq in Hi. lia.
  - intros H. exists (Z.to_nat (d - lo)). split; [lia|].
    apply in_seq. lia.
Qed.

Lemma consecutive_sorted lo n k :
  StronglySorted Z.lt (map (fun i => lo + Z.of_nat i) (seq k n)).
Proof.
  revert k. induction n as [|n IH]; intros k; simpl; constructor.
  - apply IH.
  - apply Forall_forall. intros x Hx. apply in_map_iff in Hx.
    destruct Hx as [i [<- Hi]]. apply in_seq in Hi. lia.
Qed.

Lemma date_range_sorted lo hi : StronglySorted Z.lt (date_range lo hi).
Proof. apply consecutive_sorted. Qed.

Lemma sorted_lt_NoDup l : StronglySorted Z.lt l -> NoDup l.
Proof.
  induction 1 as [|x l Hs IH Hall]; constructor; [|assumption].
  intros Hin. rewrite Forall_forall in Hall. specialize (Hall x Hin). lia.
Qed.

Lemma dense_sorted A (s : list (date * A)) :
  dense s -> StronglySorted Z.lt (map fst s).
Proof. intros [lo ->]. apply consecutive_sorted. Qed.

Lemma fill_eq df lo hi :
  NoDup (map fst df) ->
  is_min lo (map fst df) -> is_max hi (map fst df) ->
  fill df = Ok (map (fun d => (d, match loc df d with Some c => c | None => 0 end))
                    (date_range lo hi)).
Proof.
  intros Hnd Hlo Hhi. unfold fill, reindex.
  rewrite (date_min_is_min _ _ Hlo), (date_max_is_max _ _ Hhi).
  apply has_dup_NoDup in Hnd. rewrite Hnd. simpl.
  unfold fillna. now rewrite map_map.
Qed.

Lemma fill_dense df s : fill df = Ok s -> dense s.
Proof.
  unfold fill, reindex.
  destruct (date_min (map fst df)) as [lo|]; [|discriminate].
  destruct (date_max (map fst df)) as [hi|]; [|discriminate].
  destruct (has_dup (map fst df)); [discriminate|]. simpl.
  intros H. inversion H; subst. exists lo.
  unfold fillna, date_range. rewrite !length_map, length_seq, !map_map.
  simpl. reflexivity.
Qed.

(** C2 -- [fill] on a non-empty set of observations (one count per date,
    [lo] the earliest and [hi] the latest date): the result has
    [(hi - lo) + 1] entries, its dates are exactly the days of
    [[lo, hi]], ascending and one per day; every observed date keeps its
    count and every other day gets 0. *)
Theorem fill_spec (df : frame) (lo hi : date) :
  NoDup (map fst df) ->
  is_min lo (map fst df) -> is_max hi (map fst df) ->
  exists s,
    fill df = Ok s /\
    Z.of_nat (List.length s) = (hi - lo) + 1 /\
    map fst s = date_range lo hi /\
    StronglySorted Z.lt (map fst s) /\
    (forall d, In d (map fst s) <-> lo <= d <= hi) /\
    (forall d c, In (d, c) df -> In (d, c) s) /\
    (forall d, lo <= d <= hi -> ~ In d (map fst df) -> In (d, 0) s) /\
    (forall d c, In (d, c) s -> In (d, c) df \/ (~ In d (map fst df) /\ c = 0)).
Proof.
  intros Hnd Hlo Hhi. eexists. split; [apply (fill_eq _ _ _ Hnd Hlo Hhi)|].
  assert (Hdates : map fst
            (map (fun d => (d, match loc df d with Some c => c | None => 0 end))
                 (date_range lo hi)) = date_range lo hi).
  { rewrite map_map. simpl. apply map_id. }
  assert (Hle : lo <= hi) by (destruct Hlo as [Hin _]; apply Hhi, Hin).
  split; [|split; [|split; [|split; [|split; [|split]]]]].
  - rewrite length_map, date_range_length. lia.
  - exact Hdates.
  - rewrite Hdates. apply date_range_sorted.
  - intros d. rewrite Hdates. apply date_range_In.
  - intros d c Hin. apply in_map_iff. exists d. split.
    + now rewrite (loc_In _ _ _ _ Hnd Hin).
    + apply date_range_In. split.
      * apply Hlo. apply in_map_iff. now exists (d, c).
      * apply Hhi. apply in_map_iff. now exists (d, c).
  - intros d Hd Hnin. apply in_map_iff. exists d. split.
    + now rewrite (loc_None _ _ _ Hnin).
    + now apply date_range_In.
  - intros d c Hin. apply in_map_iff in Hin. destruct Hin as [d' [Heq Hd']].
    inversion Heq; subst d'. clear Heq.
    destruct (in_dec Z.eq_dec d (map fst df)) as [Hi|Hn].
    + left. apply in_map_iff in Hi. destruct Hi as [[d2 c2] [Hfst Hin2]].
      simpl in Hfst. subst d2. now rewrite (loc_In _ _ _ _ Hnd Hin2).
    + right. split; [assumption|]. now rewrite (loc_None _ _ _ Hn).
Qed.

(** Witness of [fill_spec]: observations on days 10, 12 and 13. *)
Lemma fill_spec_witness :
  exists s,
    fill [(12, 4); (10, 7); (13, 1)] = Ok s /\
    Z.of_nat (List.length s) = (13 - 10) + 1 /\
    In (11, 0) s.
Proof.
  destruct (fill_spec [(12, 4); (10, 7); (13, 1)] 10 13) as [s H].
  - simpl. repeat constructor; simpl; intuition lia.
  - split; simpl; [tauto|]. intros d Hd. intuition lia.
  - split; simpl; [tauto|]. intros d Hd. intuition lia.
  - exists s. destruct H as (H1 & H2 & _ & _ & _ & _ & H7 & _).
    repeat split; [exact H1|exact H2|].
    apply H7; [lia|]. simpl. intuition lia.
Defined.

End FrameFacts.

Module AnomalyFacts.
Import Frame FrameFacts Anomaly.
Local Open Scope R_scope.

Lemma Rleb_true x y : Rleb x y = true <-> x <= y.
Proof. unfold Rleb. destruct (Rle_dec x y); split; intros; try lra; congruence. Qed.

Lemma Reqb_true x y : Reqb x y = true <-> x = y.
Proof. unfold Reqb. destruct (Req_dec_T x y); split; intros; congruence. Qed.

Lemma Reqb_false x y : Reqb x y = false <-> x <> y.
Proof. unfold Reqb. destruct (Req_dec_T x y); split; intros; congruence. Qed.

Lemma Rltb_false x y : Rltb x y = false <-> y <= x.
Proof. unfold Rltb. destruct (Rlt_dec x y); split; intros; try lra; congruence. Qed.

Lemma sum_sq_dev_nonneg m v : 0 <= sum_sq_dev m v.
Proof.
  unfold sum_sq_dev. induction v as [|x v IH]; simpl; [lra|].
  pose proof (Rle_0_sqr (x - m)) as H. unfold Rsqr in H. lra.
Qed.

Lemma sq_dev_sym avg v :
  Rsum (map (fun x => (avg - x) * (avg - x)) v) = sum_sq_dev avg v.
Proof.
  unfold sum_sq_dev. f_equal. apply map_ext. intros x. ring.
Qed.

Lemma values_length s : List.length (values s) = List.length s.
Proof. apply length_map. Qed.

Lemma effective_std_neq_0 sd : effective_std sd <> 0.
Proof.
  unfold effective_std. destruct (Reqb sd 0) eqn:E; [lra|].
  now apply Reqb_false.
Qed.

(** [Series.std()] on at least two values is the sample standard
    deviation. *)
Lemma series_std_sample v :
  (2 <= List.length v)%nat -> series_std v = Fin (sample_std v).
Proof.
  intros Hn. unfold series_std, np_std, np_var, sample_std.
  destruct (Nat.leb_spec (List.length v) 1) as [Hle|Hgt]; [lia|].
  cbn [np_sqrt]. rewrite sq_dev_sym. fold (arithmetic_mean v).
  assert (Hd : INR (List.length v - 1) = INR (List.length v) - 1).
  { rewrite minus_INR by lia. reflexivity. }
  rewrite Hd.
  assert (Hpos : 0 < INR (List.length v) - 1).
  { rewrite <- Hd. apply lt_0_INR. lia. }
  assert (Hq : 0 <= sum_sq_dev (arithmetic_mean v) v / (INR (List.length v) - 1)).
  { apply Rmult_le_pos; [apply sum_sq_dev_nonneg|].
    left. now apply Rinv_0_lt_compat. }
  apply Rltb_false in Hq. now rewrite Hq.
Qed.

(** On a single value it is not-a-number: [count <= ddof]. *)
Lemma series_std_single x : series_std [x] = NaN.
Proof. reflexivity. Qed.

Lemma py_or_fin sd : py_or (Fin sd) (Fin 1) = Fin (effective_std sd).
Proof.
  unfold py_or, truthy, effective_std. now destruct (Reqb sd 0).
Qed.

Lemma loc_zscores s m sd d :
  loc (zscores s m sd) d =
  option_map (fun c => np_div (np_sub (Fin (IZR c)) m) sd) (loc s d).
Proof.
  induction s as [|[d' c] s IH]; simpl; [reflexivity|].
  now destruct (Z.eqb d' d).
Qed.

Lemma anomalies_of_flag s m sd l :
  NoDup (map fst s) -> incl l s ->
  anomalies_of s (zscores s m sd) (map fst l) = Ok (flat_map (flag m sd) l).
Proof.
  intros Hnd. induction l as [|[d c] l IH]; intros Hincl; [reflexivity|].
  assert (Hin : In (d, c) s) by (apply Hincl; now left).
  assert (Hl : incl l s) by (intros x Hx; apply Hincl; now right).
  cbn [map fst anomalies_of flat_map].
  unfold loc_scalar. rewrite loc_zscores, (loc_In _ _ _ _ Hnd Hin). cbn [option_map bind].
  rewrite (IH Hl). fold (zscore_of m sd c).
  change (flag m sd (d, c))
    with (if np_ge (np_abs (zscore_of m sd c)) (Fin 2)
          then [{| a_date := d; a_incident_count := c;
                   a_zscore := zscore_of m sd c |}]
          else []).
  destruct (np_ge _ _); reflexivity.
Qed.

Lemma detect_eq s :
  NoDup (map fst s) -> (2 <= List.length s)%nat ->
  detect s = Ok {| d_series := s;
                   d_anomalies :=
                     flat_map (flag (np_mean (values s))
                                    (py_or (series_std (values s)) (Fin 1))) s;
                   d_mean := np_mean (values s);
                   d_std := py_or (series_std (values s)) (Fin 1) |}.
Proof.
  intros Hnd Hn. unfold detect.
  assert (Hv : (2 <= List.length (values s))%nat) by now rewrite values_length.
  assert (Hm : exists m, np_mean (values s) = Fin m).
  { destruct s as [|p s']; [simpl in Hn; lia|]. eexists. reflexivity. }
  destruct Hm as [m Hm]. rewrite Hm, (series_std_sample _ Hv).
  cbn [masked_result py_float bind].
  rewrite (anomalies_of_flag s _ _ s Hnd (incl_refl s)). reflexivity.
Qed.

Lemma flag_In m sd l a :
  In a (flat_map (flag m sd) l) <->
  In (a_date a, a_incident_count a) l /\
  a_zscore a = zscore_of m sd (a_incident_count a) /\
  np_ge (np_abs (a_zscore a)) (Fin 2) = true.
Proof.
  rewrite in_flat_map. split.
  - intros [[d c] [Hin Ha]]. unfold flag in Ha. cbn [fst snd] in Ha.
    destruct (np_ge _ _) eqn:E; [|destruct Ha].
    destruct Ha as [<-|[]]. cbn. auto.
  - intros (Hin & Hz & Hge). exists (a_date a, a_incident_count a).
    split; [assumption|]. unfold flag. cbn [fst snd].
    rewrite <- Hz, Hge. left. now destruct a.
Qed.

Lemma flag_dates_sorted m sd l :
  StronglySorted Z.lt (map fst l) ->
  StronglySorted Z.lt (map a_date (flat_map (flag m sd) l)).
Proof.
  induction l as [|[d c] l IH]; intros Hs; [constructor|].
  inversion Hs as [|? ? Hs' Hall]; subst.
  cbn [flat_map]. unfold flag at 1. cbn [fst snd].
  destruct (np_ge _ _); cbn [app map]; [|now apply IH].
  constructor; [now apply IH|].
  apply Forall_forall. intros x Hx. apply in_map_iff in Hx.
  destruct Hx as [a [<- Ha]]. apply flag_In in Ha. destruct Ha as [Ha _].
  rewrite Forall_forall in Hall. apply Hall.
  apply in_map_iff. now exists (a_date a, a_incident_count a).
Qed.

Lemma np_mean_fin v : v <> [] -> np_mean v = Fin (arithmetic_mean v).
Proof. destruct v; [congruence|reflexivity]. Qed.

Lemma zscore_of_fin m eff c :
  eff <> 0 -> zscore_of (Fin m) (Fin eff) c = Fin ((IZR c - m) / eff).
Proof.
  intros He. unfold zscore_of, np_sub, np_div.
  apply Reqb_false in He. now rewrite He.
Qed.

Lemma detects_with_sample s :
  dense s -> (2 <= List.length s)%nat -> detects_with sample_std s.
Proof.
  intros Hd Hn. unfold detects_with.
  pose proof (dense_sorted _ s Hd) as Hs.
  assert (Hv : (2 <= List.length (values s))%nat) by now rewrite values_length.
  split; [now apply series_std_sample|].
  eexists. split; [|split].
  - rewrite (detect_eq s (sorted_lt_NoDup _ Hs) Hn).
    rewrite (series_std_sample _ Hv), py_or_fin, np_mean_fin; [reflexivity|].
    destruct s; [simpl in Hn; lia|discriminate].
  - intros d c z. rewrite flag_In. cbn [a_date a_incident_count a_zscore].
    rewrite (zscore_of_fin _ _ _ (effective_std_neq_0 _)).
    split.
    + intros (Hin & -> & Hge). cbn in Hge. apply Rleb_true in Hge. auto.
    + intros (Hin & -> & Hge). cbn. apply Rleb_true in Hge. auto.
  - now apply flag_dates_sorted.
Qed.

(** On rows of the aggregation query that span more than one day (one
    row per date) the handler does not reach its [except] clause: the filled
    series is dense and the comprehension finds every label it looks up. *)
Lemma anomalies_incidents_ok (df : frame) lo hi :
  NoDup (map fst df) ->
  is_min lo (map fst df) -> is_max hi (map fst df) -> (lo < hi)%Z ->
  exists s d,
    fill df = Ok s /\ dense s /\ detect s = Ok d /\ d_series d = s /\
    anomalies_incidents df = RespOk d.
Proof.
  intros Hnd Hlo Hhi Hlt.
  pose proof (fill_eq df lo hi Hnd Hlo Hhi) as Hfill.
  pose proof (fill_dense df _ Hfill) as Hd.
  assert (Hlen : (2 <= List.length
            (map (fun d => (d, match loc df d with Some c => c | None => 0%Z end))
                 (date_range lo hi)))%nat).
  { rewrite length_map. pose proof (date_range_length lo hi). lia. }
  pose proof (detect_eq _ (sorted_lt_NoDup _ (dense_sorted _ _ Hd)) Hlen) as Hdet.
  do 2 eexists. split; [exact Hfill|]. split; [exact Hd|].
  split; [exact Hdet|]. split; [reflexivity|].
  unfold anomalies_incidents. destruct df as [|r df'].
  - destruct Hlo as [[] _].
  - rewrite Hfill. cbn [bind]. now rewrite Hdet.
Qed.

(** C1 -- on a dense series of at least two days, [detect] returns the
    arithmetic mean of the counts and their sample standard deviation
    (the squared deviations divided by N - 1); the deviation used for the
    z-scores is 1.0 when that is 0 and the deviation itself otherwise; a day
    is listed iff the absolute value of (count - mean) / effective
    deviation is at least 2.0, and the listed days are in chronological
    order. *)
Theorem detect_sample_zscore (s : list (date * Z)) :
  dense s -> (2 <= List.length s)%nat ->
  let v := values s in
  let n := INR (List.length s) in
  let m := arithmetic_mean v in
  let sd := sample_std v in
  let eff := effective_std sd in
  m * n = Rsum v /\
  0 <= sd /\ sd * sd * (n - 1) = sum_sq_dev m v /\
  series_std v = Fin sd /\
  (sd = 0 -> eff = 1) /\ (sd <> 0 -> eff = sd) /\
  exists anoms,
    detect s = Ok {| d_series := s; d_anomalies := anoms;
                     d_mean := Fin m; d_std := Fin eff |} /\
    (forall d c z,
        In {| a_date := d; a_incident_count := c; a_zscore := z |} anoms <->
        In (d, c) s /\ z = Fin ((IZR c - m) / eff) /\
        2 <= Rabs ((IZR c - m) / eff)) /\
    StronglySorted Z.lt (map a_date anoms).
Proof.
  intros Hd Hn v n m sd eff.
  assert (Hlen : List.length v = List.length s) by apply values_length.
  assert (Hn0 : 2 <= n).
  { unfold n. change 2 with (INR 2). apply le_INR. exact Hn. }
  split; [|split; [|split; [|split; [|split; [|split]]]]].
  - unfold m, arithmetic_mean. rewrite Hlen. fold n. field. lra.
  - apply sqrt_pos.
  - unfold sd, sample_std. rewrite Hlen. fold n. fold m.
    rewrite sqrt_sqrt.
    + field. lra.
    + apply Rmult_le_pos; [apply sum_sq_dev_nonneg|].
      left. apply Rinv_0_lt_compat. lra.
  - apply series_std_sample. now rewrite Hlen.
  - intros H0. unfold eff, effective_std. apply Reqb_true in H0. now rewrite H0.
  - intros H0. unfold eff, effective_std. apply Reqb_false in H0. now rewrite H0.
  - apply (detects_with_sample s Hd Hn).
Qed.

(** Witness of [detect_sample_zscore]: the five-day series. *)
Lemma detect_sample_zscore_witness :
  series_std (values spike_series) = Fin (sample_std (values spike_series)).
Proof.
  apply (detect_sample_zscore spike_series).
  - exists 0%Z. reflexivity.
  - simpl. lia.
Defined.

Lemma spike_mean : arithmetic_mean (values spike_series) = 2.
Proof. unfold arithmetic_mean, values, spike_series. simpl. lra. Qed.

Lemma spike_sq : sum_sq_dev 2 (values spike_series) = 20.
Proof. unfold sum_sq_dev, values, spike_series. simpl. lra. Qed.

Lemma spike_population : population_std (values spike_series) = 2.
Proof.
  unfold population_std. rewrite spike_mean, spike_sq.
  replace (20 / INR (List.length (values spike_series))) with (2 * 2)
    by (simpl; lra).
  apply sqrt_square. lra.
Qed.

Lemma spike_sample :
  sample_std (values spike_series) = sqrt 5 /\ 2 < sqrt 5.
Proof.
  split.
  - unfold sample_std. rewrite spike_mean, spike_sq.
    f_equal. simpl. lra.
  - replace 2 with (sqrt (2 * 2)) at 1 by (apply sqrt_square; lra).
    apply sqrt_lt_1; lra.
Qed.

(** A day whose distance to the mean is below twice the deviation is not
    listed. *)
Lemma flag_nil m sd d c :
  0 < sd -> Rabs (IZR c - m) < 2 * sd -> flag (Fin m) (Fin sd) (d, c) = [].
Proof.
  intros Hsd Hc. unfold flag. cbn [fst snd].
  rewrite zscore_of_fin by lra. cbn [np_abs np_ge].
  destruct (Rleb 2 (Rabs ((IZR c - m) / sd))) eqn:E; [|reflexivity].
  apply Rleb_true in E. exfalso.
  unfold Rdiv in E. rewrite Rabs_mult in E.
  rewrite (Rabs_pos_eq (/ sd)) in E by (left; now apply Rinv_0_lt_compat).
  assert (Hm : Rabs (IZR c - m) * / sd < 2).
  { apply (Rmult_lt_reg_r sd); [exact Hsd|].
    rewrite Rmult_assoc, Rinv_l by lra. lra. }
  lra.
Qed.

(** C1, as stated, fails on the five-day series: the population deviation
    is 2, so the last day has z-score exactly 2.0 and would be listed; the
    code's deviation is the square root of 5, and it lists no day. *)
Lemma detect_not_population :
  ~ detects_with population_std spike_series /\
  population_std (values spike_series) = 2 /\
  2 <= Rabs ((IZR 6 - arithmetic_mean (values spike_series))
             / effective_std (population_std (values spike_series))) /\
  exists r, anomalies_incidents spike_series = RespOk r /\
            d_series r = spike_series /\
            d_anomalies r = [] /\
            d_std r = Fin (sqrt 5).
Proof.
  destruct spike_sample as [Hs Hlt].
  assert (Hstd : series_std (values spike_series) = Fin (sqrt 5)).
  { rewrite series_std_sample by (simpl; lia). now rewrite Hs. }
  split; [|split; [|split]].
  - intros [Hpop _]. rewrite Hstd, spike_population in Hpop.
    inversion Hpop. lra.
  - exact spike_population.
  - rewrite spike_mean, spike_population.
    unfold effective_std.
    assert (E : Reqb 2 0 = false) by (apply Reqb_false; lra).
    rewrite E. replace ((6 - 2) / 2) with 2 by lra.
    rewrite Rabs_pos_eq; lra.
  - assert (Hfill : fill spike_series = Ok spike_series) by reflexivity.
    assert (Hnd : NoDup (map fst spike_series)).
    { apply has_dup_NoDup. reflexivity. }
    eexists. split.
    + unfold anomalies_incidents. cbn [spike_series]. fold spike_series.
      rewrite Hfill. cbn [bind].
      rewrite (detect_eq _ Hnd) by (simpl; lia). reflexivity.
    + cbn [d_series d_anomalies d_std]. rewrite Hstd, py_or_fin.
      assert (Heff : effective_std (sqrt 5) = sqrt 5).
      { unfold effective_std.
        assert (E : Reqb (sqrt 5) 0 = false) by (apply Reqb_false; lra).
        now rewrite E. }
      rewrite Heff. split; [reflexivity|]. split; [|reflexivity].
      rewrite np_mean_fin by discriminate. rewrite spike_mean.
      unfold spike_series. cbn [flat_map].
      rewrite !flag_nil; try reflexivity; try lra; apply Rabs_def1; lra.
Qed.

(** A frame of one row is its own filled series, and the handler fails on
    it. *)
Lemma single_row_error (d : date) (c : Z) :
  fill [(d, c)] = Ok [(d, c)] /\
  detect [(d, c)] = Raise TypeError /\
  anomalies_incidents [(d, c)] = RespError TypeError.
Proof.
  assert (Hdet : detect [(d, c)] = Raise TypeError) by reflexivity.
  assert (Hfill : fill [(d, c)] = Ok [(d, c)]).
  { rewrite (fill_eq [(d, c)] d d).
    - unfold date_range. replace (d - d + 1)%Z with 1%Z by lia.
      change (seq 0 (Z.to_nat 1)) with [0%nat]. cbn [map loc Z.of_nat].
      rewrite Z.add_0_r, Z.eqb_refl. reflexivity.
    - repeat constructor. intros [].
    - split; [now left|]. intros x [<-|[]]. simpl. lia.
    - split; [now left|]. intros x [<-|[]]. simpl. lia. }
  split; [exact Hfill|]. split; [exact Hdet|].
  unfold anomalies_incidents. rewrite Hfill. cbn [bind]. now rewrite Hdet.
Qed.

(** C7 -- a series of one day: the deviation of one value with [ddof=1]
    is not-a-number, which the reduction hands back as the missing value;
    [float()] of it raises, before [or 1.0] is evaluated, and the handler
    answers through its [except] clause with status 500. *)
Theorem detect_single_point_raises (d : date) (c : Z) :
  series_std (values [(d, c)]) = NaN /\
  masked_result (series_std (values [(d, c)])) = NA /\
  fill [(d, c)] = Ok [(d, c)] /\
  detect [(d, c)] = Raise TypeError /\
  anomalies_incidents [(d, c)] = RespError TypeError.
Proof.
  destruct (single_row_error d c) as (Hfill & Hdet & Hres).
  split; [reflexivity|]. split; [reflexivity|]. split; [exact Hfill|].
  split; [exact Hdet|exact Hres].
Qed.

End AnomalyFacts.

Module ForecastFacts.
Import Frame FrameFacts Forecast.
Local Open Scope Q_scope.

(** *** Sorting *)

Lemma sort_values_sorted l :
  StronglySorted Z.lt (map fst l) -> sort_values l = l.
Proof.
  induction l as [|r l IH]; intros Hs; [reflexivity|].
  inversion Hs as [|? ? Hs' Hall]; subst. simpl. rewrite (IH Hs').
  destruct l as [|r' l']; [reflexivity|]. simpl.
  inversion Hall as [|? ? Hlt _]; subst.
  destruct (Z.leb_spec (fst r) (fst r')) as [_|Hgt]; [reflexivity|lia].
Qed.

Lemma insert_row_length r l :
  List.length (insert_row r l) = S (List.length l).
Proof.
  induction l as [|r' l IH]; simpl; [reflexivity|].
  destruct (fst r <=? fst r')%Z; simpl; [reflexivity|now rewrite IH].
Qed.

Lemma sort_values_length l : List.length (sort_values l) = List.length l.
Proof.
  induction l as [|r l IH]; simpl; [reflexivity|].
  now rewrite insert_row_length, IH.
Qed.

(** *** The last element *)

Lemma iloc_last_snoc A (l : list A) x : iloc_last (l ++ [x]) = Ok x.
Proof.
  induction l as [|a l IH]; [reflexivity|].
  simpl. destruct (l ++ [x]) eqn:E; [|exact IH].
  destruct l; discriminate.
Qed.

Lemma t_index_S n : t_index (S n) = t_index n ++ [Z.of_nat n].
Proof. unfold t_index. now rewrite seq_S, map_app. Qed.

Lemma t_index_length n : List.length (t_index n) = n.
Proof. unfold t_index. now rewrite length_map, length_seq. Qed.

Lemma iloc_last_t_index n :
  (0 < n)%nat -> iloc_last (t_index n) = Ok (Z.of_nat n - 1)%Z.
Proof.
  destruct n as [|n]; [lia|]. intros _.
  rewrite t_index_S, iloc_last_snoc. f_equal. lia.
Qed.

Lemma iloc_last_nonempty A (l : list A) :
  l <> [] -> exists x, iloc_last l = Ok x /\ In x l.
Proof.
  induction l as [|a l IH]; [congruence|]. intros _.
  destruct l as [|b l'].
  - exists a. split; [reflexivity|now left].
  - destruct IH as [x [Hx Hin]]; [discriminate|].
    exists x. split; [exact Hx|now right].
Qed.

Lemma iloc_last_dense (df : frame) lo :
  df <> [] ->
  map fst df = map (fun i => (lo + Z.of_nat i)%Z) (seq 0 (List.length df)) ->
  iloc_last (map fst df) = Ok (lo + Z.of_nat (List.length df) - 1)%Z.
Proof.
  intros Hne ->. destruct (List.length df) as [|n] eqn:E.
  - destruct df; [congruence|discriminate].
  - rewrite seq_S, map_app. cbn [map]. rewrite iloc_last_snoc. f_equal. lia.
Qed.

(** *** Sums *)

Lemma Qsum_inject l : Qsum (map inject_Z l) == inject_Z (Zsum l).
Proof.
  induction l as [|x l IH]; simpl; [reflexivity|].
  rewrite IH, inject_Z_plus. reflexivity.
Qed.

Lemma mul_cols_inject l :
  mul_cols (map inject_Z l) (map inject_Z l) =
  map inject_Z (map (fun i => (i * i)%Z) l).
Proof.
  unfold mul_cols. induction l as [|x l IH]; simpl; [reflexivity|].
  rewrite IH. f_equal. 
Qed.

Lemma Zsum_app a b : Zsum (a ++ b) = (Zsum a + Zsum b)%Z.
Proof. induction a as [|x a IH]; simpl; [reflexivity|]. rewrite IH. lia. Qed.

Lemma sum_index n :
  (2 * Zsum (t_index n) = Z.of_nat n * (Z.of_nat n - 1))%Z.
Proof.
  induction n as [|n IH]; [reflexivity|].
  rewrite t_index_S, Zsum_app. simpl Zsum. nia.
Qed.

Lemma sum_index_sq n :
  (6 * Zsum (map (fun i => i * i) (t_index n)) =
   (Z.of_nat n - 1) * Z.of_nat n * (2 * Z.of_nat n - 1))%Z.
Proof.
  induction n as [|n IH]; [reflexivity|].
  rewrite t_index_S, map_app, Zsum_app. simpl Zsum. nia.
Qed.

Lemma denominator_index n :
  denominator (map inject_Z (t_index n)) ==
  inject_Z (Z.of_nat n * Zsum (map (fun i => (i * i)%Z) (t_index n))
            - Zsum (t_index n) * Zsum (t_index n)).
Proof.
  unfold denominator. rewrite length_map, t_index_length, mul_cols_inject.
  rewrite !Qsum_inject. unfold Zminus.
  rewrite inject_Z_plus, inject_Z_opp, !inject_Z_mult. ring.
Qed.

(** The denominator of the fit vanishes exactly for fewer than two rows. *)
Lemma denominator_zero n :
  denominator (map inject_Z (t_index n)) == 0 <-> (n <= 1)%nat.
Proof.
  rewrite denominator_index.
  pose proof (sum_index n) as H1. pose proof (sum_index_sq n) as H2.
  set (s1 := Zsum (t_index n)) in *.
  set (s2 := Zsum (map (fun i => (i * i)%Z) (t_index n))) in *.
  assert (H12 : (12 * (Z.of_nat n * s2 - s1 * s1) =
                 Z.of_nat n * Z.of_nat n * (Z.of_nat n - 1) * (Z.of_nat n + 1))%Z)
    by nia.
  change 0 with (inject_Z 0). rewrite inject_Z_injective.
  split.
  - intros H0. rewrite H0 in H12.
    destruct n as [|[|n]]; [lia|lia|exfalso; nia].
  - intros Hn. destruct n as [|[|n]]; [| |lia].
    + cbn in *. lia.
    + cbn in *. lia.
Qed.

(** *** Rounding and clamping *)

Lemma round_half_even_nonneg q : 0 <= q -> (0 <= round_half_even q)%Z.
Proof.
  intros Hq. unfold round_half_even.
  assert (Hf : (0 <= Qfloor q)%Z).
  { change 0%Z with (Qfloor 0). now apply Qfloor_resp_le. }
  destruct (Qcompare _ _); [destruct (Z.even _)| |]; lia.
Qed.

Lemma round_half_even_nonpos q : q <= 0 -> (round_half_even q <= 0)%Z.
Proof.
  intros Hq. unfold round_half_even.
  assert (Hf : (Qfloor q <= 0)%Z).
  { change 0%Z with (Qfloor 0). now apply Qfloor_resp_le. }
  destruct (Z.eq_dec (Qfloor q) 0) as [H0|Hn0].
  - assert (Hlt : q - inject_Z (Qfloor q) < 1 # 2).
    { rewrite H0. pose proof (Qfloor_le q) as Hl. rewrite H0 in Hl.
      change (inject_Z 0) with 0 in *.
      apply Qle_lt_trans with (y := 0); [|reflexivity].
      setoid_replace (q - 0) with q by ring. exact Hq. }
    destruct (Qcompare (q - inject_Z (Qfloor q)) (1 # 2)) eqn:E.
    + apply Qeq_alt in E. rewrite E in Hlt. discriminate Hlt.
    + lia.
    + apply Qgt_alt in E. exfalso. apply (Qlt_irrefl (1 # 2)).
      now apply Qlt_trans with (y := q - inject_Z (Qfloor q)).
  - destruct (Qcompare _ _); [destruct (Z.even _)| |]; lia.
Qed.

Lemma py_round2_nonneg q : 0 <= q -> 0 <= py_round2 q.
Proof.
  intros Hq. unfold py_round2, Qle. cbn.
  assert (H : (0 <= round_half_even (q * 100))%Z).
  { apply round_half_even_nonneg. apply Qmult_le_0_compat; [exact Hq|discriminate]. }
  lia.
Qed.

Lemma py_round2_nonpos q : q <= 0 -> py_round2 q <= 0.
Proof.
  intros Hq. unfold py_round2, Qle. cbn.
  assert (H : (round_half_even (q * 100) <= 0)%Z).
  { apply round_half_even_nonpos.
    setoid_replace 0 with (0 * 100) by ring.
    apply Qmult_le_compat_r; [exact Hq|discriminate]. }
  lia.
Qed.

Lemma py_max_nonneg q : 0 <= py_max 0 q.
Proof.
  unfold py_max. destruct (Qlt_le_dec 0 q) as [H|H].
  - now apply Qlt_le_weak.
  - apply Qle_refl.
Qed.

(** Clamping before rounding, as the code does, and rounding before
    clamping, as the specification writes it, give the same number. *)
Lemma round_clamp_commute q :
  py_round2 (py_max 0 q) == py_max 0 (py_round2 q).
Proof.
  unfold py_max at 1. destruct (Qlt_le_dec 0 q) as [Hpos|Hneg].
  - unfold py_max. destruct (Qlt_le_dec 0 (py_round2 q)) as [H|H]; [reflexivity|].
    apply Qle_antisym; [exact H|].
    apply py_round2_nonneg. now apply Qlt_le_weak.
  - unfold py_max. destruct (Qlt_le_dec 0 (py_round2 q)) as [H|H]; [|reflexivity].
    exfalso. apply (Qlt_not_le _ _ H). now apply py_round2_nonpos.
Qed.

(** *** The fit *)

Lemma t_col_length df : List.length (t_col df) = List.length df.
Proof. unfold t_col. now rewrite length_map, t_index_length. Qed.

Lemma y_col_length df : List.length (y_col df) = List.length df.
Proof. unfold y_col. now rewrite length_map. Qed.

Lemma inject_nat_nonzero n : (0 < n)%nat -> Qeq_bool (inject_Z (Z.of_nat n)) 0 = false.
Proof.
  intros Hn. destruct (Qeq_bool _ _) eqn:E; [|reflexivity].
  apply Qeq_bool_eq in E. change 0 with (inject_Z 0) in E.
  rewrite inject_Z_injective in E. lia.
Qed.

Lemma py_div_ok a b : Qeq_bool b 0 = false -> py_div a b = Ok (a / b).
Proof. intros H. unfold py_div. now rewrite H. Qed.

Lemma fit_single (df : frame) :
  List.length df = 1%nat ->
  fit (t_col df) (y_col df) = Ok (0, spec_mean (y_col df), naive_last).
Proof.
  intros Hlen. destruct df as [|r [|r' df]]; try discriminate.
  reflexivity.
Qed.

Lemma fit_linear (df : frame) :
  (2 <= List.length df)%nat ->
  fit (t_col df) (y_col df) =
  Ok (ols_slope (t_col df) (y_col df), ols_intercept (t_col df) (y_col df),
      linear_trend).
Proof.
  intros Hlen. unfold fit.
  destruct (iloc_last_nonempty _ (y_col df)) as [yl [Hyl _]].
  { destruct df; [simpl in Hlen; lia|discriminate]. }
  rewrite Hyl. cbn [bind].
  fold (denominator (t_col df)).
  assert (Hd : Qeq_bool (denominator (t_col df)) 0 = false).
  { destruct (Qeq_bool _ _) eqn:E; [|reflexivity].
    apply Qeq_bool_eq in E. unfold t_col in E.
    apply denominator_zero in E. lia. }
  rewrite Hd, (py_div_ok _ _ Hd). cbn [bind].
  rewrite py_div_ok; [reflexivity|].
  rewrite t_col_length. apply inject_nat_nonzero. lia.
Qed.

(** *** The closed form is the least-squares line *)

Lemma inject_nat_S n :
  inject_Z (Z.of_nat (S n)) == inject_Z (Z.of_nat n) + 1.
Proof. rewrite Nat2Z.inj_succ. unfold Z.succ. now rewrite inject_Z_plus. Qed.

Lemma sum_residuals slope intercept t y :
  List.length t = List.length y ->
  Qsum (residuals slope intercept t y) ==
  Qsum y - slope * Qsum t - intercept * inject_Z (Z.of_nat (List.length t)).
Proof.
  revert y. induction t as [|a t IH]; intros [|b y] Hlen; try discriminate.
  - simpl. unfold inject_Z. ring.
  - injection Hlen as Hlen. specialize (IH y Hlen).
    unfold residuals in *. cbn [combine map Qsum fold_right fst snd List.length].
    fold (Qsum (map (fun p => snd p - (slope * fst p + intercept)) (combine t y))).
    fold (Qsum y). fold (Qsum t).
    rewrite IH, inject_nat_S. ring.
Qed.

Lemma sum_weighted_residuals slope intercept t y :
  List.length t = List.length y ->
  Qsum (mul_cols t (residuals slope intercept t y)) ==
  Qsum (mul_cols t y) - slope * Qsum (mul_cols t t) - intercept * Qsum t.
Proof.
  revert y. induction t as [|a t IH]; intros [|b y] Hlen; try discriminate.
  - simpl. ring.
  - injection Hlen as Hlen. specialize (IH y Hlen).
    unfold residuals, mul_cols in *.
    cbn [combine map Qsum fold_right fst snd].
    fold (Qsum (map (fun p => fst p * snd p)
                    (combine t (map (fun p => snd p - (slope * fst p + intercept))
                                    (combine t y))))).
    fold (Qsum (map (fun p => fst p * snd p) (combine t y))).
    fold (Qsum (map (fun p => fst p * snd p) (combine t t))).
    fold (Qsum t).
    rewrite IH. ring.
Qed.

(** The normal equations: the residuals of the fitted line sum to zero,
    and so do the residuals weighted by the time index. *)
Lemma ols_normal_equations t y :
  List.length t = List.length y ->
  ~ denominator t == 0 ->
  ~ inject_Z (Z.of_nat (List.length t)) == 0 ->
  Qsum (residuals (ols_slope t y) (ols_intercept t y) t y) == 0 /\
  Qsum (mul_cols t (residuals (ols_slope t y) (ols_intercept t y) t y)) == 0.
Proof.
  intros Hlen Hd Hn.
  rewrite (sum_residuals _ _ t y Hlen), (sum_weighted_residuals _ _ t y Hlen).
  unfold ols_intercept, ols_slope. unfold denominator in *.
  set (n := inject_Z (Z.of_nat (List.length t))) in *.
  set (st := Qsum t) in *. set (sy := Qsum y) in *.
  set (stt := Qsum (mul_cols t t)) in *. set (sty := Qsum (mul_cols t y)) in *.
  split; field; auto.
Qed.

(** *** The handler *)

Lemma horizon_bounds days : (1 <= horizon days <= 60)%Z.
Proof. unfold horizon. lia. Qed.

Lemma project_length slope intercept start_t last_date h :
  List.length (project slope intercept start_t last_date h) = Z.to_nat h.
Proof. unfold project. now rewrite length_map, length_seq. Qed.

Lemma project_nth slope intercept start_t last_date h i :
  (1 <= i <= h)%Z ->
  nth_error (project slope intercept start_t last_date h) (Z.to_nat (i - 1)) =
  Some {| p_date := (last_date + i)%Z;
          p_predicted_incidents :=
            py_round2 (py_max 0 (slope * inject_Z (start_t + i) + intercept)) |}.
Proof.
  intros Hi. unfold project.
  rewrite nth_error_map.
  assert (Hs : nth_error (seq 1 (Z.to_nat h)) (Z.to_nat (i - 1)) =
               Some (S (Z.to_nat (i - 1)))).
  { rewrite nth_error_nth' with (d := 0%nat) by (rewrite length_seq; lia).
    rewrite seq_nth by lia. reflexivity. }
  rewrite Hs. cbn [option_map].
  replace (Z.of_nat (S (Z.to_nat (i - 1)))) with i by lia. reflexivity.
Qed.

Lemma flat_forecast_nth end_date h i :
  (1 <= i <= h)%Z ->
  nth_error (flat_forecast end_date h) (Z.to_nat (i - 1)) =
  Some {| p_date := (end_date + i)%Z; p_predicted_incidents := 5 |}.
Proof.
  intros Hi. unfold flat_forecast.
  rewrite nth_error_map.
  assert (Hs : nth_error (seq 0 (Z.to_nat h)) (Z.to_nat (i - 1)) =
               Some (Z.to_nat (i - 1))).
  { rewrite nth_error_nth' with (d := 0%nat) by (rewrite length_seq; lia).
    rewrite seq_nth by lia. reflexivity. }
  rewrite Hs. cbn [option_map].
  replace (Z.of_nat (Z.to_nat (i - 1)) + 1)%Z with i by lia. reflexivity.
Qed.

Lemma sort_values_nonempty df : df <> [] -> sort_values df <> [].
Proof.
  intros Hne H. apply (f_equal (@List.length _)) in H.
  rewrite sort_values_length in H. destruct df; [congruence|discriminate].
Qed.

(** On every frame with at least one row the handler returns: the fit
    succeeds, in one of its two branches, and the loop runs. *)
Lemma forecast_nonempty days now (df : frame) :
  df <> [] ->
  let sdf := sort_values df in
  exists slope intercept m last_date,
    fit (t_col sdf) (y_col sdf) = Ok (slope, intercept, m) /\
    iloc_last (map fst sdf) = Ok last_date /\
    forecast_incidents days now df =
    Ok {| r_history := sdf;
          r_forecast := project slope intercept
                          (Z.of_nat (List.length sdf) - 1) last_date
                          (horizon days);
          r_method := m |}.
Proof.
  intros Hne sdf.
  assert (Hs : sdf <> []) by now apply sort_values_nonempty.
  assert (Hlen : (0 < List.length sdf)%nat).
  { destruct sdf; [congruence|simpl; lia]. }
  destruct (iloc_last_nonempty _ (map fst sdf)) as [ld [Hld _]].
  { destruct sdf; [congruence|discriminate]. }
  assert (Hfit : exists slope intercept m,
             fit (t_col sdf) (y_col sdf) = Ok (slope, intercept, m)).
  { destruct (Nat.eq_dec (List.length sdf) 1) as [H1|H1].
    - do 3 eexists. now apply fit_single.
    - do 3 eexists. apply fit_linear. lia. }
  destruct Hfit as (slope & intercept & m & Hfit).
  exists slope, intercept, m, ld. split; [exact Hfit|]. split; [exact Hld|].
  unfold forecast_incidents. destruct df as [|r df']; [congruence|].
  fold sdf. fold (t_col sdf). fold (y_col sdf).
  rewrite Hfit. cbn [bind]. rewrite (iloc_last_t_index _ Hlen), Hld.
  reflexivity.
Qed.

Lemma dense_is_max (df : frame) lo :
  df <> [] ->
  map fst df = map (fun i => (lo + Z.of_nat i)%Z) (seq 0 (List.length df)) ->
  is_max (lo + Z.of_nat (List.length df) - 1)%Z (map fst df).
Proof.
  intros Hne ->.
  assert (Hlen : (0 < List.length df)%nat).
  { destruct df; [congruence|simpl; lia]. }
  split.
  - apply in_map_iff. exists (List.length df - 1)%nat. split; [lia|].
    apply in_seq. lia.
  - intros d Hd. apply in_map_iff in Hd. destruct Hd as [i [<- Hi]].
    apply in_seq in Hi. lia.
Qed.

(** C3 -- for a non-empty dense series and a horizon [h] in [1, 60] the
    handler returns exactly [h] points; the i-th point (i = 1..h) is dated
    i days after the last observed date, so the dates are contiguous and
    start the day after it; its value equals
    max(0.0, round(slope * t_i + intercept, 2)) with t_i = (N - 1) + i, and
    is not negative. *)
Theorem forecast_points (now : date) (df : frame) (h : Z) :
  df <> [] -> dense df -> (1 <= h <= 60)%Z ->
  exists slope intercept m last_date r,
    fit (t_col df) (y_col df) = Ok (slope, intercept, m) /\
    is_max last_date (map fst df) /\
    forecast_incidents (Some h) now df = Ok r /\
    Z.of_nat (List.length (r_forecast r)) = h /\
    forall i, (1 <= i <= h)%Z ->
      exists p,
        nth_error (r_forecast r) (Z.to_nat (i - 1)) = Some p /\
        p_date p = (last_date + i)%Z /\
        p_predicted_incidents p ==
          spec_predicted slope intercept (Z.of_nat (List.length df) - 1 + i) /\
        0 <= p_predicted_incidents p.
Proof.
  intros Hne Hd Hh.
  pose proof (dense_sorted _ df Hd) as Hsorted.
  destruct Hd as [lo Hlo].
  destruct (forecast_nonempty (Some h) now df Hne)
    as (slope & intercept & m & ld & Hfit & Hld & Hres).
  rewrite (sort_values_sorted df Hsorted) in Hfit, Hld, Hres.
  rewrite (iloc_last_dense df lo Hne Hlo) in Hld. inversion Hld; subst ld.
  assert (Hhor : horizon (Some h) = h) by (unfold horizon; lia).
  rewrite Hhor in Hres.
  do 5 eexists. split; [exact Hfit|]. split; [exact (dense_is_max df lo Hne Hlo)|].
  split; [exact Hres|]. cbn [r_forecast]. split.
  - rewrite project_length. lia.
  - intros i Hi. eexists. split; [now apply project_nth|].
    cbn [p_date p_predicted_incidents]. split; [reflexivity|]. split.
    + unfold spec_predicted. apply round_clamp_commute.
    + apply py_round2_nonneg, py_max_nonneg.
Qed.

(** Witness of [forecast_points]: three days with five incidents each. *)
Lemma forecast_points_witness :
  exists r,
    forecast_incidents (Some 3%Z) 100%Z [(10, 5); (11, 5); (12, 5)]%Z = Ok r /\
    Z.of_nat (List.length (r_forecast r)) = 3%Z.
Proof.
  destruct (forecast_points 100%Z [(10, 5); (11, 5); (12, 5)]%Z 3%Z)
    as (slope & intercept & m & ld & r & _ & _ & Hr & Hlen & _).
  - discriminate.
  - exists 10%Z. reflexivity.
  - lia.
  - exists r. split; [exact Hr|exact Hlen].
Defined.

(** Three days with five incidents each: the denominator is 6, the
    method [linear_trend], and every prediction 5.00. *)
Example forecast_constant_series :
  forecast_incidents (Some 3%Z) 100%Z [(10, 5); (11, 5); (12, 5)]%Z =
  Ok {| r_history := [(10, 5); (11, 5); (12, 5)]%Z;
        r_forecast := [ {| p_date := 13; p_predicted_incidents := 500 # 100 |};
                        {| p_date := 14; p_predicted_incidents := 500 # 100 |};
                        {| p_date := 15; p_predicted_incidents := 500 # 100 |} ];
        r_method := linear_trend |}.
Proof. reflexivity. Qed.

(** A falling series is clamped at zero, and rows out of order are sorted
    first. *)
Example forecast_falling_series :
  forecast_incidents (Some 2%Z) 100%Z [(12, 1); (10, 9); (11, 4)]%Z =
  Ok {| r_history := [(10, 9); (11, 4); (12, 1)]%Z;
        r_forecast := [ {| p_date := 13; p_predicted_incidents := 0 # 100 |};
                        {| p_date := 14; p_predicted_incidents := 0 # 100 |} ];
        r_method := linear_trend |}.
Proof. reflexivity. Qed.

(** C9 -- the handler clamps the requested horizon itself: whatever the
    [days] parameter, the effective horizon is max(1, min(days, 60)) and
    the forecast returned has that many points, between 1 and 60. *)
Theorem forecast_horizon_clamped (d : Z) (now : date) (df : frame) :
  horizon (Some d) = Z.max 1 (Z.min d 60) /\
  exists r,
    forecast_incidents (Some d) now df = Ok r /\
    Z.of_nat (List.length (r_forecast r)) = Z.max 1 (Z.min d 60) /\
    (1 <= List.length (r_forecast r) <= 60)%nat.
Proof.
  split; [reflexivity|].
  pose proof (horizon_bounds (Some d)) as Hb.
  destruct df as [|r0 df'].
  - eexists. split; [reflexivity|]. cbn [r_forecast]. unfold flat_forecast.
    rewrite length_map, length_seq. unfold horizon in *. lia.
  - destruct (forecast_nonempty (Some d) now (r0 :: df'))
      as (slope & intercept & m & ld & _ & _ & Hres); [discriminate|].
    eexists. split; [exact Hres|]. cbn [r_forecast].
    rewrite project_length. unfold horizon in *. lia.
Qed.

(** C4 -- the handler returns on every input, by one of three branches:
    an empty frame gives the flat forecast of 5 per day from the day after
    [now], method [naive]; a vanishing denominator, which is the case of a
    single row, gives slope 0, the mean of the counts as intercept and
    method [naive_last]; any other frame gives the closed-form least-squares
    slope and intercept, the line whose residuals satisfy the normal
    equations, and method [linear_trend]. *)
Theorem forecast_policy_branches (days : option Z) (now : date) :
  (forall df, exists r, forecast_incidents days now df = Ok r) /\
  (exists r,
      forecast_incidents days now [] = Ok r /\
      r_method r = naive /\ r_history r = [] /\
      Z.of_nat (List.length (r_forecast r)) = horizon days /\
      forall i, (1 <= i <= horizon days)%Z ->
        nth_error (r_forecast r) (Z.to_nat (i - 1)) =
        Some {| p_date := (now + i)%Z; p_predicted_incidents := 5 |}) /\
  (forall df, df <> [] ->
     let sdf := sort_values df in
     let t := t_col sdf in
     let y := y_col sdf in
     exists slope intercept m last_date,
       fit t y = Ok (slope, intercept, m) /\
       forecast_incidents days now df =
       Ok {| r_history := sdf;
             r_forecast := project slope intercept
                             (Z.of_nat (List.length sdf) - 1) last_date
                             (horizon days);
             r_method := m |} /\
       (denominator t == 0 <-> List.length df = 1%nat) /\
       (denominator t == 0 ->
        slope = 0 /\ intercept = spec_mean y /\ m = naive_last) /\
       (~ denominator t == 0 ->
        slope = ols_slope t y /\ intercept = ols_intercept t y /\
        m = linear_trend /\
        Qsum (residuals slope intercept t y) == 0 /\
        Qsum (mul_cols t (residuals slope intercept t y)) == 0)).
Proof.
  split; [|split].
  - intros [|r0 df'].
    + eexists. reflexivity.
    + destruct (forecast_nonempty days now (r0 :: df'))
        as (slope & intercept & m & ld & _ & _ & Hres); [discriminate|].
      eexists. exact Hres.
  - eexists. split; [reflexivity|]. cbn [r_method r_history r_forecast].
    pose proof (horizon_bounds days) as Hb.
    split; [reflexivity|]. split; [reflexivity|]. split.
    + unfold flat_forecast. rewrite length_map, length_seq. lia.
    + intros i Hi. now apply flat_forecast_nth.
  - intros df Hne sdf t y.
    destruct (forecast_nonempty days now df Hne)
      as (slope & intercept & m & ld & Hfit & _ & Hres).
    fold sdf in Hfit, Hres. fold t in Hfit. fold y in Hfit.
    exists slope, intercept, m, ld.
    assert (Hlen : List.length sdf = List.length df) by apply sort_values_length.
    assert (Hpos : (0 < List.length df)%nat).
    { destruct df; [congruence|simpl; lia]. }
    assert (Hden : denominator t == 0 <-> List.length df = 1%nat).
    { unfold t, t_col. rewrite denominator_zero, Hlen. lia. }
    split; [exact Hfit|]. split; [exact Hres|]. split; [exact Hden|]. split.
    + intros H0. apply Hden in H0. rewrite <- Hlen in H0.
      unfold t, y in Hfit. rewrite (fit_single sdf H0) in Hfit.
      inversion Hfit. auto.
    + intros Hn0.
      assert (H2 : (2 <= List.length sdf)%nat).
      { rewrite Hlen. destruct (Nat.eq_dec (List.length df) 1) as [E|E]; [|lia].
        exfalso. now apply Hn0, Hden. }
      unfold t, y in Hfit. rewrite (fit_linear sdf H2) in Hfit.
      inversion Hfit. fold t. fold y.
      split; [reflexivity|]. split; [reflexivity|]. split; [reflexivity|].
      apply ols_normal_equations.
      * unfold t, y. now rewrite t_col_length, y_col_length.
      * exact Hn0.
      * unfold t. rewrite t_col_length. intros Hz.
        change 0 with (inject_Z 0) in Hz. rewrite inject_Z_injective in Hz. lia.
Qed.

(** Witness of [forecast_policy_branches]: a single observation takes the
    [naive_last] branch. *)
Lemma forecast_policy_branches_witness :
  exists slope intercept last_date,
    fit (t_col [(10, 7)]%Z) (y_col [(10, 7)]%Z) = Ok (slope, intercept, naive_last) /\
    forecast_incidents (Some 2%Z) 100%Z [(10, 7)]%Z =
    Ok {| r_history := [(10, 7)]%Z;
          r_forecast := project slope intercept 0 last_date 2;
          r_method := naive_last |}.
Proof.
  destruct (forecast_policy_branches (Some 2%Z) 100%Z) as (_ & _ & H).
  destruct (H [(10, 7)]%Z) as (slope & intercept & m & ld & Hfit & Hres & Hden & H0 & _).
  - discriminate.
  - destruct H0 as (_ & _ & ->); [apply Hden; reflexivity|].
    exists slope, intercept, ld. split; [exact Hfit|exact Hres].
Defined.

End ForecastFacts.

Module StrFacts.
Import Str.
Local Open Scope string_scope.

Lemma starts_with_spec needle hay :
  starts_with needle hay = true <-> exists b, hay = needle ++ b.
Proof.
  revert hay. induction needle as [|a n IH]; intros hay.
  - simpl. split; [intros _; now exists hay|reflexivity].
  - destruct hay as [|c h]; simpl.
    + split; [discriminate|intros [b Hb]; discriminate].
    + rewrite andb_true_iff, IH. split.
      * intros [Hac [b ->]]. apply Ascii.eqb_eq in Hac. subst. now exists b.
      * intros [b Hb]. inversion Hb; subst. split; [apply Ascii.eqb_refl|now exists b].
Qed.

(** [contains] is the substring test. *)
Lemma contains_spec needle hay :
  contains needle hay = true <-> exists a b, hay = a ++ needle ++ b.
Proof.
  split.
  - induction hay as [|c h IH]; simpl; rewrite orb_true_iff.
    + intros [H|H]; [|discriminate].
      apply starts_with_spec in H. destruct H as [b Hb]. now exists "", b.
    + intros [H|H].
      * apply starts_with_spec in H. destruct H as [b Hb]. now exists "", b.
      * destruct (IH H) as (a & b & ->). now exists (String c a), b.
  - intros (a & b & ->). induction a as [|c a IH].
    + assert (H : starts_with needle (needle ++ b) = true)
        by (apply starts_with_spec; now exists b).
      simpl. destruct (needle ++ b); simpl in *; now rewrite H.
    + simpl. rewrite IH. apply orb_true_r.
Qed.

End StrFacts.

Module PlaybookFacts.
Import Str StrFacts Playbook.
Local Open Scope string_scope.

Lemma is_authentication_spec c :
  is_authentication (Some c) = true <-> exists a b, c = a ++ "authentication" ++ b.
Proof. apply contains_spec. Qed.

(** C5 -- for every category that contains "authentication" as written,
    in lower case, the fallback playbook has the step
    "Force password reset & MFA re-verification" (IAM Admin, 1 hour, P1,
    IAM) in second position, before "Contain affected accounts/systems". *)
Theorem authentication_step_inserted (sev : pyval) (category : string) :
  (exists a b, category = a ++ "authentication" ++ b) ->
  mfa_step_inserted sev category /\
  owner mfa_step = "IAM Admin" /\ eta_hours mfa_step = 1%Z /\
  priority mfa_step = "P1" /\ tooling mfa_step = "IAM".
Proof.
  intros H. apply is_authentication_spec in H.
  split; [|repeat split].
  unfold mfa_step_inserted, fallback_playbook, playbook_base. rewrite H.
  destruct (is_critical sev); (split; [reflexivity|eexists; split; reflexivity]).
Qed.

(** Witness of [authentication_step_inserted]. *)
Lemma authentication_step_inserted_witness :
  mfa_step_inserted (Some "critical") "authentication_bypass".
Proof.
  apply (authentication_step_inserted (Some "critical") "authentication_bypass").
  exists "", "_bypass". reflexivity.
Defined.

(** C5, as stated, fails: "Authentication" contains the keyword once
    lower-cased, and the step is not inserted. *)
Lemma capital_authentication_not_inserted :
  (exists a b, lower "Authentication" = a ++ "authentication" ++ b) /\
  ~ mfa_step_inserted (Some "medium") "Authentication".
Proof.
  split.
  - exists "", "". reflexivity.
  - intros [H _]. vm_compute in H. discriminate H.
Qed.

(** A critical authentication incident: the inserted step is second and
    the containment step carries one hour. *)
Example playbook_critical_authentication :
  map (fun st => (step st, eta_hours st))
      (fallback_playbook (Some "critical") (Some "authentication_bypass")) =
  [ ("Establish incident channel and assign roles", 1%Z);
    ("Force password reset & MFA re‑verification", 1%Z);
    ("Contain affected accounts/systems", 1%Z);
    ("Collect evidence and snapshot logs", 2%Z);
    ("Root cause analysis and scope", 4%Z);
    ("Remediate misconfigurations/rotate secrets", 3%Z);
    ("User comms and awareness", 2%Z) ]%list.
Proof. reflexivity. Qed.

(** C10 -- the fallback playbook always has exactly 7 steps: without the
    insertion it is the 7-step template; with it the list has 8 steps and
    the truncation drops the last one, the post-incident review. *)
Theorem fallback_playbook_seven (sev category : pyval) :
  List.length (fallback_playbook sev category) = 7%nat /\
  (is_authentication category = false ->
   playbook_base sev category = fallback_playbook sev category /\
   last (fallback_playbook sev category) mfa_step = review_step) /\
  (is_authentication category = true ->
   List.length (playbook_base sev category) = 8%nat /\
   playbook_base sev category =
     (fallback_playbook sev category ++ [review_step])%list /\
   ~ In review_step (fallback_playbook sev category)).
Proof.
  unfold fallback_playbook, playbook_base.
  destruct (is_critical sev), (is_authentication category);
    (split; [reflexivity|]); split; intros H; try discriminate H.
  - split; [reflexivity|]. split; [reflexivity|].
    vm_compute. intuition discriminate.
  - split; reflexivity.
  - split; [reflexivity|]. split; [reflexivity|].
    vm_compute. intuition discriminate.
  - split; reflexivity.
Qed.

(** Witness of [fallback_playbook_seven]. *)
Lemma fallback_playbook_seven_witness :
  List.length (playbook_base (Some "critical") (Some "authentication_bypass")) = 8%nat /\
  List.length (fallback_playbook (Some "critical") (Some "authentication_bypass")) = 7%nat.
Proof.
  destruct (fallback_playbook_seven (Some "critical") (Some "authentication_bypass"))
    as (H7 & _ & H8).
  split; [|exact H7]. apply H8. reflexivity.
Defined.

End PlaybookFacts.

Module ComplianceFacts.
Import Str StrFacts Compliance.
Local Open Scope string_scope.

Lemma mem_In kw ts : mem kw ts = true <-> In kw ts.
Proof.
  unfold mem. rewrite existsb_exists. split.
  - intros [x [Hx E]]. apply String.eqb_eq in E. now subst.
  - intros H. exists kw. split; [assumption|apply String.eqb_refl].
Qed.

Lemma when_matches i kw :
  is_true (sql_or (in_unnest kw (tags i)) (lower_like (description i) kw)) =
  rule_matches i kw.
Proof.
  unfold rule_matches, in_unnest, lower_like.
  destruct (mem kw (tags i)), (description i) as [d|]; simpl;
    try reflexivity; now destruct (contains kw (lower d)).
Qed.

Lemma assessment_eq i :
  compliance_assessment i = assessment_of_severity (severity i).
Proof.
  unfold compliance_assessment, assessment_of_severity, sql_eq.
  destruct (severity i) as [s|]; [|reflexivity].
  cbn [find severity_table fst is_true].
  rewrite (String.eqb_sym "critical"), (String.eqb_sym "high"),
          (String.eqb_sym "medium"), (String.eqb_sym "low").
  destruct (String.eqb s "critical"); [reflexivity|].
  destruct (String.eqb s "high"); [reflexivity|].
  destruct (String.eqb s "medium"); [reflexivity|].
  destruct (String.eqb s "low"); reflexivity.
Qed.

(** C6 -- the policy is that of the first rule that matches, in the order
    mfa, saas, access, else the general policy; a rule matches when its
    keyword is one of the tags or occurs in the description (compared in
    lower case); the assessment is a function of the severity alone, by the
    fixed table; tags ["mfa"] with severity "high" give
    ("MFA Policy", "High Risk - Escalate to Senior Team"). *)
Theorem check_compliance_rules (i : incident) :
  applicable_policy i = first_match i policy_rules /\
  (forall kw, rule_matches i kw = true <->
              In kw (tags i) \/
              exists d a b, description i = Some d /\ lower d = a ++ kw ++ b) /\
  compliance_assessment i = assessment_of_severity (severity i) /\
  (tags i = ["mfa"]%list -> severity i = Some "high" ->
   check_compliance i = ("MFA Policy", "High Risk - Escalate to Senior Team")).
Proof.
  split; [|split; [|split]].
  - unfold applicable_policy. rewrite !when_matches. reflexivity.
  - intros kw. unfold rule_matches. rewrite orb_true_iff, mem_In.
    split; (intros [H|H]; [now left|right]).
    + destruct (description i) as [d|]; [|discriminate].
      apply contains_spec in H. destruct H as (a & b & H). now exists d, a, b.
    + destruct H as (d & a & b & -> & H). apply contains_spec. now exists a, b.
  - apply assessment_eq.
  - intros Ht Hs. unfold check_compliance, applicable_policy.
    rewrite assessment_eq, Hs, when_matches. unfold rule_matches. rewrite Ht.
    reflexivity.
Qed.

(** Witness of [check_compliance_rules]: the example of the
    specification. *)
Lemma check_compliance_rules_witness :
  check_compliance {| description := None; severity := Some "high";
                      tags := ["mfa"]%list |} =
  ("MFA Policy", "High Risk - Escalate to Senior Team").
Proof.
  apply (check_compliance_rules
           {| description := None; severity := Some "high"; tags := ["mfa"]%list |});
    reflexivity.
Defined.

End ComplianceFacts.

Module PlaybookHeapFacts.
Import Playbook PlaybookHeap.

Lemma new_dicts_spec ds h :
  new_dicts ds h =
  (map (fun i => List.length h + i)%nat (seq 0 (List.length ds)), h ++ ds).
Proof.
  revert h. induction ds as [|d ds IH]; intros h.
  - simpl. unfold ret. now rewrite app_nil_r.
  - cbn [new_dicts]. unfold andthen, new_dict, ret. rewrite IH.
    rewrite <- app_assoc. cbn [app List.length seq map]. f_equal. f_equal.
    + lia.
    + rewrite <- seq_shift, map_map, length_app. cbn [List.length].
      apply map_ext. intros i. lia.
Qed.

Lemma update_at_app A (f : A -> A) (h l : list A) k :
  update_at (List.length h + k) f (h ++ l) = h ++ update_at k f l.
Proof.
  induction h as [|a h IH]; [reflexivity|].
  cbn [List.length Nat.add app update_at]. now rewrite IH.
Qed.

Lemma dump_app (h l : heap) ks :
  dump (map (fun i => List.length h + i)%nat ks) (h ++ l) =
  (flat_map (fun k => match nth_error l k with
                      | Some d => [d]
                      | None => []
                      end) ks, h ++ l).
Proof.
  unfold dump. f_equal. rewrite flat_map_concat_map, map_map.
  rewrite <- flat_map_concat_map. apply flat_map_ext. intros k.
  rewrite nth_error_app2 by lia.
  now replace (List.length h + k - List.length h)%nat with k by lia.
Qed.

(** Whatever the heap holds when the call starts, the call returns the
    playbook of the pure reading of the code. *)
Lemma fallback_playbook_run_pure sev category h :
  fst (fallback_playbook_run sev category h) = fallback_playbook sev category.
Proof.
  unfold fallback_playbook_run, andthen. rewrite new_dicts_spec.
  unfold fallback_playbook, playbook_base.
  destruct (is_critical sev), (is_authentication category).
  - unfold set_item_at, andthen, set_item, new_dict, ret. cbn [nth_error map seq base_template List.length].
    rewrite !update_at_app.
    rewrite <- app_assoc.
    replace (List.length (h ++ update_at 1 (set_priority "P1")
                                 (update_at 1 (set_eta_hours 1) base_template)))
      with (List.length h + 7)%nat by (rewrite length_app; reflexivity).
    change (firstn 7 (list_insert 1 (List.length h + 7)%nat
              [(List.length h + 0)%nat; (List.length h + 1)%nat;
               (List.length h + 2)%nat; (List.length h + 3)%nat;
               (List.length h + 4)%nat; (List.length h + 5)%nat;
               (List.length h + 6)%nat]))
      with (map (fun i => List.length h + i)%nat [0; 7; 1; 2; 3; 4; 5]%nat).
    rewrite dump_app. reflexivity.
  - unfold set_item_at, andthen, set_item, ret. cbn [nth_error map seq base_template List.length].
    rewrite !update_at_app.
    change (firstn 7
              [(List.length h + 0)%nat; (List.length h + 1)%nat;
               (List.length h + 2)%nat; (List.length h + 3)%nat;
               (List.length h + 4)%nat; (List.length h + 5)%nat;
               (List.length h + 6)%nat])
      with (map (fun i => List.length h + i)%nat [0; 1; 2; 3; 4; 5; 6]%nat).
    rewrite dump_app. reflexivity.
  - unfold andthen, new_dict, ret. cbn [map seq base_template List.length].
    rewrite <- app_assoc.
    replace (List.length (h ++ base_template))
      with (List.length h + 7)%nat by (rewrite length_app; reflexivity).
    change (firstn 7 (list_insert 1 (List.length h + 7)%nat
              [(List.length h + 0)%nat; (List.length h + 1)%nat;
               (List.length h + 2)%nat; (List.length h + 3)%nat;
               (List.length h + 4)%nat; (List.length h + 5)%nat;
               (List.length h + 6)%nat]))
      with (map (fun i => List.length h + i)%nat [0; 7; 1; 2; 3; 4; 5]%nat).
    rewrite dump_app. reflexivity.
  - unfold andthen, ret. cbn [map seq base_template List.length].
    change (firstn 7
              [(List.length h + 0)%nat; (List.length h + 1)%nat;
               (List.length h + 2)%nat; (List.length h + 3)%nat;
               (List.length h + 4)%nat; (List.length h + 5)%nat;
               (List.length h + 6)%nat])
      with (map (fun i => List.length h + i)%nat [0; 1; 2; 3; 4; 5; 6]%nat).
    rewrite dump_app. reflexivity.
Qed.

(** Two calls in a row, the second on the heap the first left behind. *)
Lemma fallback_playbook_run_twice sev category h :
  let (out1, h1) := fallback_playbook_run sev category h in
  let (out2, _) := fallback_playbook_run sev category h1 in
  out1 = out2.
Proof.
  pose proof (fallback_playbook_run_pure sev category h) as H1.
  destruct (fallback_playbook_run sev category h) as [out1 h1].
  pose proof (fallback_playbook_run_pure sev category h1) as H2.
  destruct (fallback_playbook_run sev category h1) as [out2 h2].
  simpl in *. congruence.
Qed.

End PlaybookHeapFacts.


(** * Further properties of the handlers *)

Module AnomalyMore.
Import Frame FrameFacts Anomaly AnomalyFacts.
Local Open Scope R_scope.

Lemma two_rows_span (df : frame) lo hi :
  NoDup (map fst df) -> (2 <= List.length df)%nat ->
  is_min lo (map fst df) -> is_max hi (map fst df) -> (lo < hi)%Z.
Proof.
  intros Hnd Hlen Hlo Hhi.
  destruct df as [|[d1 c1] [|[d2 c2] df']]; try (simpl in Hlen; lia).
  assert (Hne : d1 <> d2).
  { inversion Hnd as [|? ? Hnin _]; subst. intros ->. apply Hnin. now left. }
  pose proof (proj2 Hlo d1 (or_introl eq_refl)).
  pose proof (proj2 Hlo d2 (or_intror (or_introl eq_refl))).
  pose proof (proj2 Hhi d1 (or_introl eq_refl)).
  pose proof (proj2 Hhi d2 (or_intror (or_introl eq_refl))).
  lia.
Qed.

(** X1 -- The outcomes of [anomalies_incidents]: the empty answer for no
    rows; the [except] clause, status 500, for rows that repeat a date (where
    [reindex] raises) and for a single row (where [float()] of the deviation
    raises); and for two or more rows with distinct dates the filled series,
    with the listed days taken from it. *)
Theorem anomalies_incidents_outcomes (df : frame) :
  match anomalies_incidents df with
  | RespEmpty => df = []
  | RespError e =>
      (e = ValueError /\ ~ NoDup (map fst df)) \/
      (e = TypeError /\ exists d c, df = [(d, c)])
  | RespOk d =>
      (2 <= List.length df)%nat /\ NoDup (map fst df) /\
      fill df = Ok (d_series d) /\ dense (d_series d) /\
      forall a, In a (d_anomalies d) ->
                In (a_date a, a_incident_count a) (d_series d)
  end.
Proof.
  destruct df as [|r df']; [reflexivity|].
  set (df := r :: df').
  destruct (has_dup (map fst df)) eqn:Hdup.
  - assert (Hfill : fill df = Raise ValueError).
    { unfold fill, reindex. rewrite Hdup.
      destruct (date_min (map fst df)), (date_max (map fst df)); reflexivity. }
    unfold anomalies_incidents. fold df. rewrite Hfill. cbn [bind df].
    left. split; [reflexivity|]. intros Hnd. apply has_dup_NoDup in Hnd.
    fold df in Hnd. congruence.
  - apply has_dup_NoDup in Hdup.
    destruct df' as [|r' df''].
    + destruct r as [d c].
      destruct (single_row_error d c) as (_ & _ & Hres).
      unfold df. rewrite Hres. right. split; [reflexivity|]. now exists d, c.
    + assert (Hlen : (2 <= List.length df)%nat) by (simpl; lia).
      destruct (date_min_spec (map fst df)) as [lo [_ Hlo]]; [discriminate|].
      destruct (date_max_spec (map fst df)) as [hi [_ Hhi]]; [discriminate|].
      pose proof (two_rows_span df lo hi Hdup Hlen Hlo Hhi) as Hlt.
      destruct (anomalies_incidents_ok df lo hi Hdup Hlo Hhi Hlt)
        as (s & d & Hfill & Hd & Hdet & Hser & Hres).
      fold df. rewrite Hres. subst s.
      split; [exact Hlen|]. split; [exact Hdup|]. split; [exact Hfill|].
      split; [exact Hd|].
      intros a Ha.
      assert (Hlen' : (2 <= List.length (d_series d))%nat).
      { rewrite (fill_eq df lo hi Hdup Hlo Hhi) in Hfill. inversion Hfill as [Hs].
        rewrite length_map. pose proof (date_range_length lo hi). lia. }
      rewrite (detect_eq _ (sorted_lt_NoDup _ (dense_sorted _ _ Hd)) Hlen') in Hdet.
      inversion Hdet as [Heq]. rewrite <- Heq in Ha. cbn [d_anomalies] in Ha.
      apply flag_In in Ha. rewrite <- Heq. cbn [d_series]. apply Ha.
Qed.

(** Witness of [anomalies_incidents_outcomes]: two rows for one date. *)
Lemma anomalies_incidents_outcomes_witness :
  (ValueError = ValueError /\ ~ NoDup (map fst [(1, 2); (1, 3)]%Z)) \/
  (ValueError = TypeError /\ exists d c, [(1, 2); (1, 3)]%Z = [(d, c)]).
Proof.
  exact (anomalies_incidents_outcomes [(1, 2); (1, 3)]%Z).
Defined.

Lemma sample_std_sq v :
  (2 <= List.length v)%nat ->
  sample_std v * sample_std v * (INR (List.length v) - 1) =
  sum_sq_dev (arithmetic_mean v) v.
Proof.
  intros Hn.
  assert (Hn0 : 2 <= INR (List.length v)).
  { change 2 with (INR 2). now apply le_INR. }
  unfold sample_std. rewrite sqrt_sqrt.
  - field. lra.
  - apply Rmult_le_pos; [apply sum_sq_dev_nonneg|].
    left. apply Rinv_0_lt_compat. lra.
Qed.

Lemma sum_sq_zscores m e (l : list (date * Z)) :
  e <> 0 ->
  Rsum (map (fun p => ((IZR (snd p) - m) / e) * ((IZR (snd p) - m) / e)) l) =
  sum_sq_dev m (values l) / (e * e).
Proof.
  intros He. unfold sum_sq_dev, values.
  induction l as [|p l IH]; simpl.
  - field. exact He.
  - rewrite IH. unfold Rsum. field. exact He.
Qed.

(** Every listed day contributes at least 4 to the sum of the squared
    z-scores. *)
Lemma flag_length_bound m e (l : list (date * Z)) :
  e <> 0 ->
  4 * INR (List.length (flat_map (flag (Fin m) (Fin e)) l)) <=
  Rsum (map (fun p => ((IZR (snd p) - m) / e) * ((IZR (snd p) - m) / e)) l).
Proof.
  intros He. induction l as [|[d c] l IH]; [simpl; lra|].
  cbn [flat_map map Rsum fold_right snd]. fold (Rsum (map
    (fun p => ((IZR (snd p) - m) / e) * ((IZR (snd p) - m) / e)) l)).
  unfold flag at 1. cbn [fst snd]. rewrite (zscore_of_fin _ _ _ He).
  cbn [np_abs np_ge]. set (z := (IZR c - m) / e) in *.
  destruct (Rleb 2 (Rabs z)) eqn:E.
  - apply Rleb_true in E. cbn [app List.length]. rewrite S_INR.
    assert (Hz : 4 <= z * z).
    { rewrite <- (Rabs_pos_eq (z * z)) by nra. rewrite Rabs_mult. nra. }
    lra.
  - cbn [app]. assert (0 <= z * z) by nra. lra.
Qed.

(** X2 -- The number of listed days is bounded by the length of the series:
    the squared z-scores sum to at most N - 1, and each listed day takes 4 of
    it. A series of four days or fewer lists nothing. *)
Theorem anomalies_count_bound (s : list (date * Z)) :
  dense s -> (2 <= List.length s)%nat ->
  exists d,
    detect s = Ok d /\
    (4 * List.length (d_anomalies d) <= List.length s - 1)%nat /\
    ((List.length s <= 4)%nat -> d_anomalies d = []).
Proof.
  intros Hd Hn.
  pose proof (sorted_lt_NoDup _ (dense_sorted _ s Hd)) as Hnd.
  assert (Hv : (2 <= List.length (values s))%nat) by now rewrite values_length.
  eexists. split; [apply (detect_eq s Hnd Hn)|]. cbn [d_anomalies].
  rewrite (series_std_sample _ Hv), py_or_fin, np_mean_fin
    by (destruct s; [simpl in Hn; lia|discriminate]).
  set (m := arithmetic_mean (values s)).
  set (e := effective_std (sample_std (values s))).
  set (k := List.length (flat_map (flag (Fin m) (Fin e)) s)).
  assert (He : e <> 0) by apply effective_std_neq_0.
  assert (Hn0 : 2 <= INR (List.length s)).
  { change 2 with (INR 2). now apply le_INR. }
  assert (Hbound : 4 * INR k <= INR (List.length s) - 1).
  { pose proof (flag_length_bound m e s He) as Hk. fold k in Hk.
    rewrite (sum_sq_zscores m e s He) in Hk.
    pose proof (sample_std_sq _ Hv) as Hsq. fold m in Hsq.
    rewrite values_length in Hsq. rewrite <- Hsq in Hk.
    unfold e, effective_std in Hk.
    destruct (Reqb (sample_std (values s)) 0) eqn:E.
    - apply Reqb_true in E. rewrite E in Hk.
      replace (0 * 0 * (INR (List.length s) - 1) / (1 * 1)) with 0 in Hk by field.
      lra.
    - apply Reqb_false in E.
      replace (sample_std (values s) * sample_std (values s) *
               (INR (List.length s) - 1) /
               (sample_std (values s) * sample_std (values s)))
        with (INR (List.length s) - 1) in Hk by (field; exact E).
      exact Hk. }
  assert (Hnat : (4 * k <= List.length s - 1)%nat).
  { apply INR_le. rewrite mult_INR, minus_INR by lia.
    replace (INR 4) with 4 by (simpl; lra).
    replace (INR 1) with 1 by reflexivity. exact Hbound. }
  split; [exact Hnat|].
  intros H4. assert (Hk0 : k = 0%nat) by lia.
  unfold k in Hk0. now apply length_zero_iff_nil.
Qed.

(** Witness of [anomalies_count_bound]: the five-day series. *)
Lemma anomalies_count_bound_witness :
  exists d, detect spike_series = Ok d /\
            (4 * List.length (d_anomalies d) <= 4)%nat.
Proof.
  destruct (anomalies_count_bound spike_series) as (d & Hd & Hb & _).
  - exists 0%Z. reflexivity.
  - simpl. lia.
  - exists d. split; [exact Hd|exact Hb].
Defined.

Lemma Rsum_constant c (l : list (date * Z)) :
  (forall p, In p l -> snd p = c) ->
  Rsum (values l) = INR (List.length l) * IZR c.
Proof.
  intros Hc. induction l as [|p l IH]; [simpl; lra|].
  cbn [values map Rsum fold_right]. fold (values l). fold (Rsum (values l)).
  rewrite IH by (intros q Hq; apply Hc; now right).
  rewrite (Hc p (or_introl eq_refl)).
  change (List.length (p :: l)) with (S (List.length l)). rewrite S_INR. ring.
Qed.

Lemma sum_sq_dev_constant c (l : list (date * Z)) :
  (forall p, In p l -> snd p = c) ->
  sum_sq_dev (IZR c) (values l) = 0.
Proof.
  intros Hc. unfold sum_sq_dev, values. induction l as [|p l IH]; [reflexivity|].
  cbn [map Rsum fold_right].
  fold (Rsum (map (fun x => (x - IZR c) * (x - IZR c))
                  (map (fun p => IZR (snd p)) l))).
  rewrite IH by (intros q Hq; apply Hc; now right).
  rewrite (Hc p (or_introl eq_refl)). ring.
Qed.

(** X3 -- A series that has the same count every day: the deviation is 0, the
    guard replaces it by 1.0, and no day is listed. *)
Theorem constant_series_quiet (s : list (date * Z)) (c : Z) :
  dense s -> (2 <= List.length s)%nat ->
  (forall p, In p s -> snd p = c) ->
  detect s = Ok {| d_series := s; d_anomalies := [];
                   d_mean := Fin (IZR c); d_std := Fin 1 |}.
Proof.
  intros Hd Hn Hc.
  pose proof (sorted_lt_NoDup _ (dense_sorted _ s Hd)) as Hnd.
  assert (Hv : (2 <= List.length (values s))%nat) by now rewrite values_length.
  assert (Hn0 : 2 <= INR (List.length s)).
  { change 2 with (INR 2). now apply le_INR. }
  assert (Hmean : arithmetic_mean (values s) = IZR c).
  { unfold arithmetic_mean. rewrite values_length, (Rsum_constant c s Hc).
    field. lra. }
  assert (Hsd : sample_std (values s) = 0).
  { unfold sample_std. rewrite Hmean, (sum_sq_dev_constant c s Hc).
    replace (0 / (INR (List.length (values s)) - 1)) with 0
      by (unfold Rdiv; ring).
    apply sqrt_0. }
  assert (Heff : effective_std 0 = 1).
  { unfold effective_std. assert (E : Reqb 0 0 = true) by now apply Reqb_true.
    now rewrite E. }
  rewrite (detect_eq s Hnd Hn).
  rewrite (series_std_sample _ Hv), py_or_fin, np_mean_fin
    by (destruct s; [simpl in Hn; lia|discriminate]).
  rewrite Hmean, Hsd, Heff. f_equal. f_equal.
  clear Hd Hn Hnd Hv Hn0 Hmean Hsd.
  induction s as [|[d x] s IH]; [reflexivity|].
  cbn [flat_map]. rewrite IH by (intros q Hq; apply Hc; now right).
  assert (Hx : x = c) by exact (Hc (d, x) (or_introl eq_refl)).
  rewrite flag_nil; [reflexivity|lra|]. rewrite Hx.
  replace (IZR c - IZR c) with 0 by ring. rewrite Rabs_R0. lra.
Qed.

(** Witness of [constant_series_quiet]: three days with four incidents. *)
Lemma constant_series_quiet_witness :
  detect [(7, 4); (8, 4); (9, 4)]%Z =
  Ok {| d_series := [(7, 4); (8, 4); (9, 4)]%Z; d_anomalies := [];
        d_mean := Fin (IZR 4); d_std := Fin 1 |}.
Proof.
  apply (constant_series_quiet [(7, 4); (8, 4); (9, 4)]%Z 4%Z).
  - exists 7%Z. reflexivity.
  - simpl. lia.
  - intros p [<-|[<-|[<-|[]]]]; reflexivity.
Defined.

End AnomalyMore.

Module FrameMore.
Import Frame FrameFacts Totals.

Lemma fill_inv (df : frame) s :
  fill df = Ok s ->
  exists lo hi,
    NoDup (map fst df) /\ is_min lo (map fst df) /\ is_max hi (map fst df) /\
    s = map (fun d => (d, match loc df d with Some c => c | None => 0 end))
            (date_range lo hi).
Proof.
  intros H.
  assert (Hne : map fst df <> []).
  { intros E. unfold fill in H. rewrite E in H. discriminate H. }
  destruct (date_min_spec _ Hne) as [lo [_ Hlo]].
  destruct (date_max_spec _ Hne) as [hi [_ Hhi]].
  assert (Hnd : NoDup (map fst df)).
  { apply has_dup_NoDup. unfold fill, reindex in H.
    destruct (date_min (map fst df)); [|discriminate H].
    destruct (date_max (map fst df)); [|discriminate H].
    destruct (has_dup (map fst df)); [discriminate H|reflexivity]. }
  exists lo, hi. rewrite (fill_eq df lo hi Hnd Hlo Hhi) in H.
  inversion H. auto.
Qed.

(** X4 -- Filling is idempotent: a filled series has no gap left, and filling it
    again returns it unchanged. *)
Theorem fill_idempotent (df : frame) (s : list (date * Z)) :
  fill df = Ok s -> fill s = Ok s.
Proof.
  intros H. destruct (fill_inv df s H) as (lo & hi & Hnd & Hlo & Hhi & Hs).
  assert (Hle : lo <= hi) by (destruct Hlo as [Hin _]; apply Hhi, Hin).
  set (g := fun d : Z => match loc df d with Some c => c | None => 0 end) in *.
  assert (Hdates : map fst s = date_range lo hi).
  { rewrite Hs, map_map. simpl. apply map_id. }
  assert (Hnds : NoDup (map fst s)).
  { rewrite Hdates. apply sorted_lt_NoDup, date_range_sorted. }
  rewrite (fill_eq s lo hi Hnds).
  - f_equal. etransitivity; [|symmetry; exact Hs].
    apply map_ext_in. intros d Hd. f_equal.
    rewrite (loc_In _ s d (g d) Hnds); [reflexivity|].
    rewrite Hs. apply in_map_iff. now exists d.
  - rewrite Hdates. split; [apply date_range_In; lia|].
    intros d Hd. apply date_range_In in Hd. lia.
  - rewrite Hdates. split; [apply date_range_In; lia|].
    intros d Hd. apply date_range_In in Hd. lia.
Qed.

(** Witness of [fill_idempotent]. *)
Lemma fill_idempotent_witness :
  fill [(10, 7); (11, 0); (12, 4)] = Ok [(10, 7); (11, 0); (12, 4)].
Proof.
  apply (fill_idempotent [(12, 4); (10, 7)]). reflexivity.
Defined.

Lemma sum_zero (idx : list Z) :
  fold_right Z.add 0 (map (fun _ => 0) idx) = 0.
Proof. induction idx as [|a idx IH]; simpl; [reflexivity|]. now rewrite IH. Qed.

Lemma sum_pick (f : Z -> Z) d0 c0 (idx : list Z) :
  NoDup idx -> In d0 idx -> f d0 = 0 ->
  fold_right Z.add 0 (map (fun d => if Z.eqb d0 d then c0 else f d) idx) =
  c0 + fold_right Z.add 0 (map f idx).
Proof.
  induction idx as [|a idx IH]; intros Hnd Hin H0; [destruct Hin|].
  inversion Hnd as [|? ? Hnin Hnd']; subst. cbn [map fold_right].
  destruct (Z.eqb_spec d0 a) as [<-|Hne].
  - assert (Hrest : map (fun d => if Z.eqb d0 d then c0 else f d) idx = map f idx).
    { apply map_ext_in. intros d Hd.
      destruct (Z.eqb_spec d0 d) as [<-|_]; [contradiction|reflexivity]. }
    rewrite Hrest, H0. lia.
  - destruct Hin as [->|Hin]; [congruence|].
    rewrite (IH Hnd' Hin H0). lia.
Qed.

Lemma sum_lookup (df : frame) (idx : list Z) :
  NoDup idx -> NoDup (map fst df) -> incl (map fst df) idx ->
  fold_right Z.add 0
    (map (fun d => match loc df d with Some c => c | None => 0 end) idx) =
  fold_right Z.add 0 (map snd df).
Proof.
  intros Hidx. induction df as [|[d0 c0] df IH]; intros Hnd Hincl.
  - simpl. apply sum_zero.
  - inversion Hnd as [|? ? Hnin Hnd']; subst. cbn [map snd fold_right].
    rewrite <- IH; [|exact Hnd'|intros x Hx; apply Hincl; now right].
    rewrite <- (sum_pick _ d0 c0 idx Hidx).
    + f_equal. apply map_ext. intros d. simpl.
      now destruct (Z.eqb d0 d).
    + apply Hincl. now left.
    + now rewrite (loc_None _ df d0 Hnin).
Qed.

(** X5 -- Filling keeps the total: the days it adds count no incident. *)
Theorem fill_keeps_total (df : frame) (s : list (date * Z)) :
  fill df = Ok s -> total_count s = total_count df.
Proof.
  intros H. destruct (fill_inv df s H) as (lo & hi & Hnd & Hlo & Hhi & Hs).
  unfold total_count. rewrite Hs, map_map. cbn [snd].
  apply sum_lookup.
  - apply sorted_lt_NoDup, date_range_sorted.
  - exact Hnd.
  - intros d Hd. apply date_range_In. split; [now apply Hlo|now apply Hhi].
Qed.

(** Witness of [fill_keeps_total]. *)
Lemma fill_keeps_total_witness :
  total_count [(10, 7); (11, 0); (12, 0); (13, 4)] = total_count [(13, 4); (10, 7)].
Proof.
  apply (fill_keeps_total [(13, 4); (10, 7)]). reflexivity.
Defined.

End FrameMore.

Module ForecastMore.
Import Frame FrameFacts Totals Forecast ForecastFacts.
Local Open Scope Q_scope.

(** *** Rows in any order *)

Lemma insert_row_perm r l : Permutation (insert_row r l) (r :: l).
Proof.
  induction l as [|r' l IH]; simpl; [apply Permutation_refl|].
  destruct (fst r <=? fst r')%Z; [apply Permutation_refl|].
  apply perm_trans with (r' :: r :: l); [now apply perm_skip|apply perm_swap].
Qed.

Lemma sort_values_perm l : Permutation (sort_values l) l.
Proof.
  induction l as [|r l IH]; simpl; [apply perm_nil|].
  apply perm_trans with (r :: sort_values l);
    [apply insert_row_perm|now apply perm_skip].
Qed.

Lemma insert_row_sorted r l :
  StronglySorted by_date l -> StronglySorted by_date (insert_row r l).
Proof.
  induction 1 as [|r' l Hs IH Hall]; simpl; [repeat constructor|].
  destruct (Z.leb_spec (fst r) (fst r')) as [Hle|Hgt].
  - constructor; [now constructor|]. constructor; [exact Hle|].
    rewrite Forall_forall in *. intros x Hx. specialize (Hall x Hx).
    unfold by_date in *. lia.
  - constructor; [exact IH|].
    rewrite Forall_forall in *. intros x Hx.
    apply (Permutation_in _ (insert_row_perm r l)) in Hx.
    destruct Hx as [<-|Hx]; [unfold by_date; lia|now apply Hall].
Qed.

Lemma sort_values_by_date l : StronglySorted by_date (sort_values l).
Proof.
  induction l as [|r l IH]; simpl; [constructor|now apply insert_row_sorted].
Qed.

Lemma iloc_last_sorted (l : list (Z * Z)) x :
  StronglySorted by_date l -> iloc_last (map fst l) = Ok x ->
  In x (map fst l) /\ forall y, In y (map fst l) -> (y <= x)%Z.
Proof.
  induction 1 as [|r l Hs IH Hall]; [discriminate|].
  destruct l as [|r' l'].
  - simpl. intros H. inversion H; subst. split; [now left|].
    intros y [<-|[]]. lia.
  - intros H. change (iloc_last (map fst (r' :: l')) = Ok x) in H.
    destruct (IH H) as [Hin Hmax]. split; [now right|].
    intros y [<-|Hy]; [|now apply Hmax].
    apply in_map_iff in Hin. destruct Hin as [p [<- Hp]].
    rewrite Forall_forall in Hall. apply (Hall p Hp).
Qed.

(** X6 -- Rows may come in any order: the history returned is the rows sorted by
    date, and the forecast continues, one day at a time, from the latest
    date among them. *)
Theorem forecast_from_latest_date (days : option Z) (now : date) (df : frame) :
  df <> [] ->
  exists r hi,
    forecast_incidents days now df = Ok r /\
    Permutation (r_history r) df /\
    StronglySorted by_date (r_history r) /\
    is_max hi (map fst df) /\
    map p_date (r_forecast r) =
    map (fun k => (hi + Z.of_nat k)%Z) (seq 1 (Z.to_nat (horizon days))).
Proof.
  intros Hne.
  destruct (forecast_nonempty days now df Hne)
    as (slope & intercept & m & ld & _ & Hld & Hres).
  do 2 eexists. split; [exact Hres|]. cbn [r_history r_forecast].
  split; [apply sort_values_perm|]. split; [apply sort_values_by_date|].
  destruct (iloc_last_sorted _ _ (sort_values_by_date df) Hld) as [Hin Hmax].
  assert (Hp : Permutation (map fst (sort_values df)) (map fst df))
    by (apply Permutation_map, sort_values_perm).
  split.
  - split.
    + apply (Permutation_in _ Hp), Hin.
    + intros d Hd. apply Hmax. apply (Permutation_in _ (Permutation_sym Hp)), Hd.
  - unfold project. rewrite map_map. reflexivity.
Qed.

(** Witness of [forecast_from_latest_date]: three rows out of order. *)
Lemma forecast_from_latest_date_witness :
  exists r,
    forecast_incidents (Some 2%Z) 100%Z [(12, 1); (10, 9); (11, 4)]%Z = Ok r /\
    map p_date (r_forecast r) = [13; 14]%Z.
Proof.
  destruct (forecast_from_latest_date (Some 2%Z) 100%Z [(12, 1); (10, 9); (11, 4)]%Z)
    as (r & hi & Hr & _ & _ & Hmax & Hdates); [discriminate|].
  exists r. split; [exact Hr|]. rewrite Hdates.
  assert (Hhi : hi = 12%Z).
  { apply (is_max_unique _ _ _ Hmax). split; simpl; [tauto|].
    intros d Hd. intuition lia. }
  rewrite Hhi. reflexivity.
Defined.

(** *** Rounding *)






(** *** A constant history *)

Lemma constant_sums c (t y : list Q) :
  List.length t = List.length y ->
  Forall (fun v => v == c) y ->
  Qsum y == inject_Z (Z.of_nat (List.length t)) * c /\
  Qsum (mul_cols t y) == c * Qsum t.
Proof.
  revert y. induction t as [|a t IH]; intros [|b y] Hlen Hall; try discriminate.
  - split; simpl; [unfold inject_Z|]; ring.
  - injection Hlen as Hlen. inversion Hall as [|? ? Hb Hall']; subst.
    destruct (IH y Hlen Hall') as [IH1 IH2]. split.
    + cbn [Qsum fold_right List.length]. fold (Qsum y).
      rewrite IH1, Hb, inject_nat_S. ring.
    + unfold mul_cols in *. cbn [combine map Qsum fold_right fst snd].
      fold (Qsum (map (fun p => fst p * snd p) (combine t y))). fold (Qsum t).
      rewrite IH2, Hb. ring.
Qed.

Lemma constant_line n st sy stt sty c :
  sy == n * c -> sty == c * st ->
  ~ n * stt - st * st == 0 -> ~ n == 0 ->
  (n * sty - st * sy) / (n * stt - st * st) == 0 /\
  (sy - (n * sty - st * sy) / (n * stt - st * st) * st) / n == c.
Proof.
  intros Hy Hty Hd Hn. rewrite Hy, Hty. split; field; auto.
Qed.

Lemma round_half_even_int q z :
  q == inject_Z z -> round_half_even q = z.
Proof.
  intros Hq. unfold round_half_even.
  assert (Hf : Qfloor q = z) by (rewrite Hq; apply Qfloor_Z).
  rewrite Hf.
  assert (Hlt : q - inject_Z z < 1 # 2) by (rewrite Hq; Lqa.lra).
  destruct (Qcompare (q - inject_Z z) (1 # 2)) eqn:E.
  - apply Qeq_alt in E. rewrite E in Hlt. discriminate Hlt.
  - reflexivity.
  - apply Qgt_alt in E. Lqa.lra.
Qed.

Lemma py_round2_int q z : q == inject_Z z -> py_round2 q == inject_Z z.
Proof.
  intros Hq. unfold py_round2.
  rewrite (round_half_even_int (q * 100) (z * 100)).
  - unfold Qeq. simpl. lia.
  - rewrite Hq, inject_Z_mult. reflexivity.
Qed.

Lemma clamp_round_int q z :
  (0 <= z)%Z -> q == inject_Z z -> py_round2 (py_max 0 q) == inject_Z z.
Proof.
  intros Hz Hq. unfold py_max. destruct (Qlt_le_dec 0 q) as [Hpos|Hneg].
  - now apply py_round2_int.
  - assert (Hz0 : z = 0%Z).
    { rewrite Hq in Hneg. change 0 with (inject_Z 0) in Hneg.
      rewrite <- Zle_Qle in Hneg. lia. }
    subst z. now apply py_round2_int.
Qed.

Lemma y_col_constant (l : frame) c :
  (forall r, In r l -> snd r = c) ->
  Forall (fun v => v == inject_Z c) (y_col l).
Proof.
  intros Hc. unfold y_col. apply Forall_forall. intros v Hv.
  apply in_map_iff in Hv. destruct Hv as [r [<- Hr]].
  now rewrite (Hc r Hr).
Qed.

(** The line fitted to a constant history is flat at that count. *)
Lemma fit_constant (l : frame) c :
  l <> [] -> (forall r, In r l -> snd r = c) ->
  exists slope intercept m,
    fit (t_col l) (y_col l) = Ok (slope, intercept, m) /\
    slope == 0 /\ intercept == inject_Z c.
Proof.
  intros Hne Hc.
  assert (Hlen : List.length (t_col l) = List.length (y_col l))
    by now rewrite t_col_length, y_col_length.
  destruct (constant_sums (inject_Z c) (t_col l) (y_col l) Hlen
              (y_col_constant l c Hc)) as [Hsy Hsty].
  destruct (Nat.eq_dec (List.length l) 1) as [H1|H1].
  - do 3 eexists. split; [now apply fit_single|]. split; [reflexivity|].
    unfold spec_mean. rewrite Hsy, y_col_length, t_col_length, H1.
    change (inject_Z (Z.of_nat 1)) with 1. field.
  - assert (H2 : (2 <= List.length l)%nat).
    { destruct l as [|r [|r' l']]; [congruence|simpl in H1; lia|simpl; lia]. }
    do 3 eexists. split; [now apply fit_linear|].
    unfold ols_intercept, ols_slope, denominator.
    apply constant_line.
    + exact Hsy.
    + exact Hsty.
    + fold (denominator (t_col l)). unfold t_col.
      rewrite denominator_zero. lia.
    + rewrite t_col_length. intros Hz.
      change 0 with (inject_Z 0) in Hz. rewrite inject_Z_injective in Hz. lia.
Qed.

(** X8 -- A history with the same count [c] on every row is forecast at [c] for
    every day of the horizon, whether one row or many. *)
Theorem constant_history_forecast (days : option Z) (now : date) (df : frame)
    (c : Z) :
  df <> [] -> (0 <= c)%Z -> (forall r, In r df -> snd r = c) ->
  exists r,
    forecast_incidents days now df = Ok r /\
    Z.of_nat (List.length (r_forecast r)) = horizon days /\
    forall p, In p (r_forecast r) -> p_predicted_incidents p == inject_Z c.
Proof.
  intros Hne Hc0 Hc.
  assert (Hs : sort_values df <> []) by now apply sort_values_nonempty.
  assert (Hcs : forall r, In r (sort_values df) -> snd r = c).
  { intros r Hr. apply Hc. apply (Permutation_in _ (sort_values_perm df)), Hr. }
  destruct (fit_constant _ c Hs Hcs) as (slope & intercept & m & Hfit & Hsl & Hic).
  destruct (forecast_nonempty days now df Hne)
    as (slope' & intercept' & m' & ld & Hfit' & _ & Hres).
  rewrite Hfit in Hfit'. inversion Hfit'; subst slope' intercept' m'.
  eexists. split; [exact Hres|]. cbn [r_forecast]. split.
  - rewrite project_length. pose proof (horizon_bounds days). lia.
  - intros p Hp. unfold project in Hp. apply in_map_iff in Hp.
    destruct Hp as [k [<- _]]. cbn [p_predicted_incidents].
    apply clamp_round_int; [exact Hc0|].
    rewrite Hsl, Hic. ring.
Qed.

(** Witness of [constant_history_forecast]: a single row. *)
Lemma constant_history_forecast_witness :
  exists r,
    forecast_incidents (Some 3%Z) 100%Z [(10, 7)]%Z = Ok r /\
    forall p, In p (r_forecast r) -> p_predicted_incidents p == inject_Z 7.
Proof.
  destruct (constant_history_forecast (Some 3%Z) 100%Z [(10, 7)]%Z 7%Z)
    as (r & Hr & _ & Hp).
  - discriminate.
  - lia.
  - intros r [<-|[]]. reflexivity.
  - exists r. split; [exact Hr|exact Hp].
Defined.

End ForecastMore.

Module NarratorMore.
Import Str StrFacts Narrator NarratorRow ComplianceFacts.
Local Open Scope string_scope.

Lemma mem_lower_tags kw (ts : list string) :
  mem kw (map lower ts) = true <-> exists t, In t ts /\ lower t = kw.
Proof.
  rewrite mem_In, in_map_iff. split; intros [t [H1 H2]]; exists t; auto.
Qed.

(** X10 -- The list of recommended actions always ends with the post-incident
    review and has between one and five entries; it opens with the incident
    command exactly for the severities critical and high. *)
Theorem suggestions_shape (severity category description : string)
    (tags_list : list string) :
  let l := suggestions severity category description tags_list in
  last l "" = "Document findings and schedule post-incident review within 72 hours" /\
  (1 <= List.length l <= 5)%nat /\
  (hd "" l = "Initiate incident command and page senior on-call" <->
   severity = "critical" \/ severity = "high").
Proof.
  unfold suggestions.
  assert (Hsev : String.eqb severity "critical" || String.eqb severity "high" = true <->
                 severity = "critical" \/ severity = "high").
  { rewrite orb_true_iff, !String.eqb_eq. reflexivity. }
  destruct (String.eqb severity "critical" || String.eqb severity "high");
    destruct (contains "authentication" category
              || contains "mfa" (lower description)
              || mem "mfa" (map lower tags_list));
    destruct (existsb (fun k => contains k category)
                ["data_leak"; "credential"; "insider"; "third_party"]%list);
    cbn [app last hd List.length];
    (split; [reflexivity|]); (split; [lia|]);
    split; intros H; try (now apply Hsev); try discriminate H;
    try reflexivity;
    apply Hsev in H; discriminate H.
Qed.

Lemma mfa_in_suggestions (severity category description : string)
    (tags_list : list string) :
  In "Force password reset; enforce MFA re-verification for affected users"
     (suggestions severity category description tags_list) <->
  (exists a b, category = a ++ "authentication" ++ b) \/
  (exists a b, lower description = a ++ "mfa" ++ b) \/
  (exists t, In t tags_list /\ lower t = "mfa").
Proof.
  rewrite <- !contains_spec, <- mem_lower_tags.
  rewrite <- !orb_true_iff, orb_assoc.
  unfold suggestions.
  destruct (String.eqb severity "critical" || String.eqb severity "high");
    destruct (contains "authentication" category
              || contains "mfa" (lower description)
              || mem "mfa" (map lower tags_list));
    destruct (existsb (fun k => contains k category)
                ["data_leak"; "credential"; "insider"; "third_party"]%list);
    cbn [app In]; split; intros H; try reflexivity; try discriminate H;
    try tauto;
    repeat (destruct H as [H|H]; [discriminate H|]); destruct H.
Qed.

(** X11 -- The password-reset action is among the actions of the summary
    exactly when the category (or its default) contains "authentication" as
    written, or the description contains "mfa" in any case, or the tags of
    the row are a Python list with an entry that is "mfa" in any case. Tags
    that are not a Python list, as the arrays the warehouse client delivers,
    do not pass the gate and never bring the action. *)
Theorem mfa_suggestion_iff (row : incident_row) :
  let mfa_action :=
    "Force password reset; enforce MFA re-verification for affected users" in
  (In mfa_action (row_suggestions row) <->
   (exists a b, val (category row) "general" = a ++ "authentication" ++ b) \/
   (exists a b, lower (val (description row) "") = a ++ "mfa" ++ b) \/
   (exists ts t, tags row = Some ts /\ In t ts /\ lower t = "mfa")) /\
  (tags row = None ->
   (In mfa_action (row_suggestions row) <->
    (exists a b, val (category row) "general" = a ++ "authentication" ++ b) \/
    (exists a b, lower (val (description row) "") = a ++ "mfa" ++ b))) /\
  (forall str_title str_of_int str_of_float format_2f incident_id,
   exists head,
     summary_text str_title str_of_int str_of_float format_2f incident_id row =
     join newline
       (List.app head
          (map (fun s => String.append "- " s) (row_suggestions row)))).
Proof.
  intros mfa_action. unfold mfa_action, row_suggestions.
  split; [|split].
  - rewrite mfa_in_suggestions. split.
    + intros [H|[H|[t [Ht Hl]]]]; [now left|now right; left|].
      right. right. destruct (tags row) as [ts|]; [|destruct Ht].
      now exists ts, t.
    + intros [H|[H|(ts & t & Hts & Ht & Hl)]]; [now left|now right; left|].
      right. right. rewrite Hts. now exists t.
  - intros Hnone. rewrite mfa_in_suggestions, Hnone. cbn [val]. split.
    + intros [H|[H|[t [[] _]]]]; [now left|now right].
    + intros [H|H]; [now left|now right; left].
  - intros str_title str_of_int str_of_float format_2f incident_id.
    unfold summary_text. eexists.
    rewrite !app_assoc. reflexivity.
Qed.

(** Witness of [mfa_suggestion_iff]: tags that are not a Python list. *)
Lemma mfa_suggestion_iff_witness :
  ~ In "Force password reset; enforce MFA re-verification for affected users"
       (row_suggestions
          {| title := None; description := Some "Login anomaly";
             severity := Some "high"; status := None; category := Some "shadow_it";
             business_impact := None; root_cause := None; resolution := None;
             created_at := None; risk_score := None; affected_users := None;
             resolution_time_hours := None; tags := None |}).
Proof.
  intros H.
  apply (proj1 (proj2 (mfa_suggestion_iff
          {| title := None; description := Some "Login anomaly";
             severity := Some "high"; status := None; category := Some "shadow_it";
             business_impact := None; root_cause := None; resolution := None;
             created_at := None; risk_score := None; affected_users := None;
             resolution_time_hours := None; tags := None |})) eq_refl) in H.
  rewrite <- !contains_spec in H. cbn in H. destruct H as [H|H]; discriminate H.
Defined.

End NarratorMore.

Module PlaybookMore.
Import Str StrFacts Playbook PlaybookHeap PlaybookHeapFacts Priority.
Local Open Scope string_scope.

Ltac each_step H :=
  repeat (destruct H as [<-|H]; [|]); try destruct H.

(** X12 -- The severity override reaches one field of one step: for a severity
    that reads "critical" in any case the containment step takes one hour
    instead of two; its priority stays P1 and every other step is the one
    the playbook has without a severity. *)
Theorem severity_override_scope (sev category : pyval) :
  (is_critical sev = true <-> exists s, sev = Some s /\ lower s = "critical") /\
  (forall st, In st (fallback_playbook sev category) ->
              step st = "Contain affected accounts/systems" ->
              eta_hours st = (if is_critical sev then 1 else 2)%Z /\
              priority st = "P1") /\
  (forall st, In st (fallback_playbook sev category) ->
              step st <> "Contain affected accounts/systems" ->
              In st (fallback_playbook None category)).
Proof.
  split; [|split].
  - destruct sev as [s|]; simpl.
    + rewrite String.eqb_eq. split.
      * intros H. now exists s.
      * intros [s' [Hs H]]. now inversion Hs; subst.
    + split; [discriminate|]. intros [s [H _]]. discriminate H.
  - unfold fallback_playbook, playbook_base.
    destruct (is_critical sev), (is_authentication category);
      intros st H Hstep; cbn in H; each_step H;
      try discriminate Hstep; split; reflexivity.
  - unfold fallback_playbook, playbook_base. cbn [is_critical].
    destruct (is_critical sev), (is_authentication category);
      intros st H Hstep; cbn in H; each_step H;
      try (exfalso; apply Hstep; reflexivity); cbn; tauto.
Qed.

(** Witness of [severity_override_scope]: severity in capitals. *)
Lemma severity_override_scope_witness :
  is_critical (Some "CRITICAL") = true.
Proof.
  apply (severity_override_scope (Some "CRITICAL") None).
  exists "CRITICAL". split; reflexivity.
Defined.

(** X13 -- Every step of the fallback playbook carries one of the priorities P1,
    P2, P3 and between one and four hours, and the steps come in order of
    priority, whatever the severity and the category. *)
Theorem playbook_priority_order (sev category : pyval) :
  (forall st, In st (fallback_playbook sev category) ->
              (1 <= priority_rank (priority st) <= 3)%nat /\
              (1 <= eta_hours st <= 4)%Z) /\
  StronglySorted le (map (fun st => priority_rank (priority st))
                         (fallback_playbook sev category)).
Proof.
  unfold fallback_playbook, playbook_base.
  destruct (is_critical sev), (is_authentication category); split;
    try (intros st H; cbn in H; each_step H; cbn; lia);
    cbn; repeat (constructor; [|repeat constructor; lia]); constructor.
Qed.

(** Witness of [playbook_priority_order]: the inserted step. *)
Lemma playbook_priority_order_witness :
  (1 <= priority_rank (priority mfa_step) <= 3)%nat /\
  (1 <= eta_hours mfa_step <= 4)%Z.
Proof.
  apply (proj1 (playbook_priority_order (Some "critical") (Some "authentication"))).
  right. left. reflexivity.
Defined.

(** X14 -- The call allocates its seven or eight dictionaries and writes to
    nothing else: what the heap held before is still there, unchanged, as a
    prefix. *)
Theorem fallback_playbook_run_frame (sev category : pyval) (h : heap) :
  exists fresh,
    snd (fallback_playbook_run sev category h) = (h ++ fresh)%list /\
    List.length fresh = (if is_authentication category then 8 else 7)%nat.
Proof.
  unfold fallback_playbook_run, andthen. rewrite new_dicts_spec.
  destruct (is_critical sev), (is_authentication category).
  - unfold set_item_at, andthen, set_item, new_dict, ret, dump.
    cbn [nth_error map seq base_template List.length snd].
    rewrite !update_at_app, <- app_assoc.
    eexists. split; [reflexivity|reflexivity].
  - unfold set_item_at, andthen, set_item, ret, dump.
    cbn [nth_error map seq base_template List.length snd].
    rewrite !update_at_app.
    eexists. split; [reflexivity|reflexivity].
  - unfold andthen, new_dict, ret, dump. cbn [snd]. rewrite <- app_assoc.
    eexists. split; [reflexivity|reflexivity].
  - unfold andthen, ret, dump. cbn [snd].
    eexists. split; [reflexivity|reflexivity].
Qed.

End PlaybookMore.

Module RbacFacts.
Import Str StrFacts Rbac ComplianceFacts.
Local Open Scope string_scope.

Lemma lower_ascii_idempotent c : lower_ascii (lower_ascii c) = lower_ascii c.
Proof.
  destruct c as [[] [] [] [] [] [] [] []]; reflexivity.
Qed.

Lemma lower_idempotent s : lower (lower s) = lower s.
Proof.
  induction s as [|c s IH]; simpl; [reflexivity|].
  now rewrite lower_ascii_idempotent, IH.
Qed.

Lemma role_cases req :
  get_user_role req = "viewer" \/ get_user_role req = "analyst" \/
  get_user_role req = "admin".
Proof.
  unfold get_user_role.
  set (role := lower (strip _)).
  destruct (mem role known_roles) eqn:E; [|now left].
  apply mem_In in E. simpl in E. intuition congruence.
Qed.

(** X15 -- Whatever a request carries, the role is one of viewer, analyst and
    admin; a name outside these three, and a request that names no role,
    give viewer. *)
Theorem get_user_role_known (req : request) :
  In (get_user_role req) known_roles /\
  (get_user_role req <> "viewer" ->
   exists raw, lower (strip raw) = get_user_role req /\
               (header_role req = Some raw \/ cookie_role req = Some raw \/
                arg_role req = Some raw)).
Proof.
  split.
  - destruct (role_cases req) as [-> | [-> | ->]]; simpl; tauto.
  - unfold get_user_role.
    set (raw := or_else (header_role req)
                  (or_else (cookie_role req) (or_else (arg_role req) "viewer"))).
    destruct (mem (lower (strip raw)) known_roles) eqn:E; [|congruence].
    intros Hnv. exists raw. split; [reflexivity|].
    unfold raw, or_else in *.
    destruct (header_role req) as [[|c s]|]; auto;
      destruct (cookie_role req) as [[|c' s']|]; auto;
      destruct (arg_role req) as [[|c'' s'']|]; auto;
      exfalso; apply Hnv; reflexivity.
Qed.

(** Witness of [get_user_role_known]: an admin header with a blank in
    front, capitals, and a no-break space (U+00A0, the bytes C2 A0) and a
    line separator (U+2028, the bytes E2 80 A8) behind. *)
Lemma get_user_role_known_witness :
  let nbsp := String (ascii_of_nat 194) (String (ascii_of_nat 160) "") in
  let ls := String (ascii_of_nat 226) (String (ascii_of_nat 128)
              (String (ascii_of_nat 168) "")) in
  exists raw,
    lower (strip raw) = "admin" /\
    raw = " Admin" ++ nbsp ++ ls.
Proof.
  intros nbsp ls.
  destruct (get_user_role_known
              {| header_role := Some (" Admin" ++ nbsp ++ ls);
                 cookie_role := None; arg_role := None |}) as [_ H].
  destruct H as [raw [Hraw Hsrc]]; [discriminate|].
  exists raw. split; [exact Hraw|].
  destruct Hsrc as [H|[H|H]]; now inversion H.
Defined.

(** X16 -- The header decides when it is there and not empty: the cookie and the
    query parameter cannot override it, not even when the header names no
    known role. Likewise the cookie before the query parameter. *)
Theorem role_precedence (req : request) (c : ascii) (s : string) :
  (header_role req = Some (String c s) ->
   get_user_role req =
   get_user_role {| header_role := Some (String c s);
                    cookie_role := None; arg_role := None |}) /\
  ((header_role req = None \/ header_role req = Some "") ->
   cookie_role req = Some (String c s) ->
   get_user_role req =
   get_user_role {| header_role := None;
                    cookie_role := Some (String c s); arg_role := None |}).
Proof.
  split.
  - intros H. unfold get_user_role. rewrite H. reflexivity.
  - intros [H|H] Hc; unfold get_user_role; rewrite H, Hc; reflexivity.
Qed.

(** Witness of [role_precedence]: an unknown header beats an admin
    cookie. *)
Lemma role_precedence_witness :
  get_user_role {| header_role := Some "root"; cookie_role := Some "admin";
                   arg_role := Some "admin" |} = "viewer".
Proof.
  rewrite (proj1 (role_precedence
                    {| header_role := Some "root"; cookie_role := Some "admin";
                       arg_role := Some "admin" |} "r" "oot") eq_refl).
  reflexivity.
Defined.

(** The row of a body, when there is one. *)
Lemma evidence_row_of_ok (incident_id : string) (body : option jvalue)
    (uuid now : string) (row : evidence_row) :
  evidence_row_of incident_id body uuid now = Ok row ->
  e_evidence_id row = value_or (body_get "evidence_id" body) (VString uuid) /\
  e_incident_id row = incident_id /\
  e_created_at row = now /\
  exists s,
    value_or (body_get "object_type" body) (VString "generic") = VString s /\
    e_object_type row = lower s.
Proof.
  unfold evidence_row_of, payload_of.
  destruct body as [v|]; [|discriminate].
  destruct v as [|b|z|x|str|items|items];
    try (destruct (truthy _) eqn:T;
         cbn [bind payload_get get value_or value_lower body_get];
         [discriminate|
          intros H; inversion H; cbn; repeat split; eexists; split; reflexivity]).
  destruct (truthy (VObject items)) eqn:T.
  - cbn [bind payload_get body_get].
    destruct (value_or (get "object_type" items) (VString "generic"))
      as [|b|z|x|str|l|l] eqn:E;
      cbn [value_lower bind]; try discriminate.
    intros H; inversion H; cbn. repeat split. now exists str.
  - destruct items; [|discriminate T].
    cbn. intros H; inversion H; cbn. repeat split. now eexists.
Qed.

(** The bodies that make lines 679-696 raise. *)
Lemma evidence_row_of_raises (incident_id : string) (body : option jvalue)
    (uuid now : string) :
  (exists e, evidence_row_of incident_id body uuid now = Raise e) <->
  body = None \/
  (exists v, body = Some v /\ truthy v = true /\
             forall items, v <> VObject items) \/
  (exists t, body_get "object_type" body = Some t /\ truthy t = true /\
             forall s, t <> VString s).
Proof.
  unfold evidence_row_of, payload_of.
  destruct body as [v|].
  2:{ split; [now left|]. intros _. now exists BadRequest. }
  assert (Hobj : forall items,
    (exists e,
       (object_type <-
          value_lower (value_or (get "object_type" items) (VString "generic")) ;;
        Ok {| e_evidence_id := value_or (get "evidence_id" items) (VString uuid);
              e_incident_id := incident_id;
              e_object_uri := value_or (get "object_uri" items) (VString "");
              e_object_type := object_type;
              e_description := value_or (get "description" items) (VString "");
              e_tags := value_or (get "tags" items) (VArray []%list);
              e_uploader := value_or (get "uploader" items) (VString "web-user");
              e_created_at := now |}) = Raise e) <->
    exists t, get "object_type" items = Some t /\ truthy t = true /\
              forall s, t <> VString s).
  { intros items. unfold value_or.
    destruct (get "object_type" items) as [t|].
    - destruct (truthy t) eqn:T.
      + destruct t as [|b|z|x|str|l|l]; cbn [value_lower bind];
          try (split; [intros _; eexists; split; [reflexivity|];
                       split; [exact T|]; intros s0 Hs0; discriminate Hs0
                      |intros _; now exists AttributeError]).
        split; [intros [e He]; discriminate He|].
        intros (t & Ht & _ & Hns). inversion Ht; subst t.
        now destruct (Hns str).
      + cbn [value_lower bind]. split; [intros [e He]; discriminate He|].
        intros (t0 & Ht & Ht0 & _). inversion Ht; subst t0. congruence.
    - cbn [value_lower bind]. split; [intros [e He]; discriminate He|].
      intros (t & Ht & _). discriminate Ht. }
  destruct (truthy v) eqn:T.
  - destruct v as [|b|z|x|str|l|items];
      try (cbn [bind payload_get body_get];
           split; [intros _; right; left; eexists; split; [reflexivity|];
                   split; [exact T|]; intros items Hi; discriminate Hi
                  |intros _; now exists AttributeError]).
    cbn [bind payload_get body_get]. rewrite Hobj. split.
    + intros H. right. right. exact H.
    + intros [H|[(v & Hv & _ & Hno)|H]]; [discriminate H| |exact H].
      inversion Hv; subst v. now destruct (Hno items).
  - cbn [bind payload_get]. rewrite (Hobj []%list). cbn [get]. split.
    + intros (t & Ht & _). discriminate Ht.
    + intros [H|[(v0 & Hv & Hv0 & _)|(t & Ht & Ht0 & _)]].
      * discriminate H.
      * inversion Hv; subst v0. congruence.
      * destruct v as [|b|z|x|str|l|items]; try discriminate Ht.
        destruct items; [discriminate Ht|discriminate T].
Qed.

(** X17 -- Evidence is handed to the warehouse only for an analyst or an
    admin: any other role is answered 403 and no row is submitted. The gate
    is the one [require_role] builds for these two roles, and it is shut
    exactly for the roles to which [whoami] does not announce
    "write_evidence". Behind the gate one row is submitted, unless lines
    679-696 raise, which is answered 500 with nothing submitted: a body that
    is not JSON, a body that is a true value other than an object, and an
    object whose object_type is a true value other than a string. *)
Theorem evidence_post_gate (client : bool) (req : request)
    (incident_id : string) (body : option jvalue) (uuid now : string)
    (outcome : insert_outcome) :
  let res := evidence_post client req incident_id body uuid now outcome in
  let role := get_user_role req in
  (snd res <> []%list ->
   client = true /\ (role = "analyst" \/ role = "admin")) /\
  (fst res = PostForbidden role <->
   client = true /\
   require_role ["analyst"; "admin"]%list (fun _ => tt) req = Forbidden role) /\
  (client = true ->
   (fst res = PostForbidden role <->
    ~ In "write_evidence" (snd (whoami req)))) /\
  (forall r, fst res = PostForbidden r -> r = role /\ snd res = []%list) /\
  (client = true -> In "write_evidence" (snd (whoami req)) ->
   match evidence_row_of incident_id body uuid now with
   | Ok row => snd res = [row]%list
   | Raise _ => fst res = PostError /\ snd res = []%list
   end) /\
  ((exists e, evidence_row_of incident_id body uuid now = Raise e) <->
   body = None \/
   (exists v, body = Some v /\ truthy v = true /\
              forall items, v <> VObject items) \/
   (exists t, body_get "object_type" body = Some t /\ truthy t = true /\
              forall s, t <> VString s)).
Proof.
  intros res role.
  split; [|split; [|split; [|split; [|split]]]];
    try apply evidence_row_of_raises;
    unfold res, role, evidence_post, require_role, whoami;
    destruct client; cbn [negb fst snd].
  - destruct (role_cases req) as [-> | [-> | ->]]; cbn; intros H;
      [now destruct H|split; [reflexivity|tauto]..].
  - intros H. now destruct H.
  - destruct (role_cases req) as [-> | [-> | ->]]; cbn.
    + split; [intros _; split; reflexivity|reflexivity].
    + destruct (evidence_row_of _ _ _ _); [destruct outcome|]; cbn;
        (split; [discriminate|intros [_ H]; discriminate H]).
    + destruct (evidence_row_of _ _ _ _); [destruct outcome|]; cbn;
        (split; [discriminate|intros [_ H]; discriminate H]).
  - split; [discriminate|intros [H _]; discriminate H].
  - intros _. destruct (role_cases req) as [-> | [-> | ->]]; cbn.
    + split; [intros _ H|reflexivity].
      repeat (destruct H as [H|H]; [discriminate H|]). destruct H.
    + destruct (evidence_row_of _ _ _ _); [destruct outcome|]; cbn;
        (split; [discriminate|intros H; exfalso; apply H; tauto]).
    + destruct (evidence_row_of _ _ _ _); [destruct outcome|]; cbn;
        (split; [discriminate|intros H; exfalso; apply H; tauto]).
  - discriminate.
  - intros r.
    destruct (negb (mem (get_user_role req) ["analyst"; "admin"]%list)).
    + cbn. intros H. inversion H. split; reflexivity.
    + destruct (evidence_row_of _ _ _ _); [destruct outcome|]; cbn;
        discriminate.
  - intros r H. discriminate H.
  - intros _. destruct (role_cases req) as [-> | [-> | ->]]; cbn.
    + intros H. repeat (destruct H as [H|H]; [discriminate H|]). destruct H.
    + intros _. destruct (evidence_row_of _ _ _ _); [destruct outcome|]; cbn;
        try reflexivity. split; reflexivity.
    + intros _. destruct (evidence_row_of _ _ _ _); [destruct outcome|]; cbn;
        try reflexivity. split; reflexivity.
  - discriminate.
Qed.

(** Witness of [evidence_post_gate]: an analyst whose object_type is a
    number is answered 500, and nothing is submitted. *)
Lemma evidence_post_gate_witness :
  evidence_post true {| header_role := Some "analyst"; cookie_role := None;
                        arg_role := None |} "INC-1"
    (Some (VObject [("object_type", VInt 7)]%list)) "u" "t" Inserted
  = (PostError, []%list).
Proof.
  pose proof (proj1 (proj2 (proj2 (proj2 (proj2
    (evidence_post_gate true
       {| header_role := Some "analyst"; cookie_role := None;
          arg_role := None |} "INC-1"
       (Some (VObject [("object_type", VInt 7)]%list)) "u" "t" Inserted)))))
    eq_refl) as H.
  destruct H as [H1 H2]; [right; left; reflexivity|].
  apply injective_projections; assumption.
Defined.

(** X18 -- A successful POST answers with the identifier of the one row it
    submitted: the payload's when it has a non-empty one, a fresh one
    otherwise; the row belongs to the incident of the URL and its object type
    is in lower case. *)
Theorem evidence_post_row (client : bool) (req : request)
    (incident_id : string) (body : option jvalue) (uuid now : string)
    (outcome : insert_outcome) (id : jvalue) :
  fst (evidence_post client req incident_id body uuid now outcome) = PostOk id ->
  exists row,
    snd (evidence_post client req incident_id body uuid now outcome)
    = [row]%list /\
    outcome = Inserted /\
    e_evidence_id row = id /\
    e_incident_id row = incident_id /\
    lower (e_object_type row) = e_object_type row /\
    (forall c s, body_get "evidence_id" body = Some (VString (String c s)) ->
                 id = VString (String c s)) /\
    (body_get "evidence_id" body = None \/
     body_get "evidence_id" body = Some (VString "") -> id = VString uuid) /\
    (forall v, body_get "evidence_id" body = Some v ->
               id = if truthy v then v else VString uuid) /\
    client = true /\
    (get_user_role req = "analyst" \/ get_user_role req = "admin").
Proof.
  unfold evidence_post.
  destruct client; [|discriminate]. cbn [negb].
  destruct (negb (mem (get_user_role req) ["analyst"; "admin"]%list)) eqn:G;
    [discriminate|].
  destruct (evidence_row_of incident_id body uuid now) as [row|e] eqn:E;
    [|discriminate].
  destruct outcome; cbn [fst snd]; intros H; try discriminate H.
  inversion H as [Hid]. exists row.
  destruct (evidence_row_of_ok _ _ _ _ _ E) as (He & Hi & _ & s & _ & Hs).
  split; [reflexivity|]. split; [reflexivity|]. split; [reflexivity|].
  split; [exact Hi|]. split; [rewrite Hs; apply lower_idempotent|].
  rewrite He. split; [|split; [|split; [|split]]].
  - intros c s0 Hp. rewrite Hp. reflexivity.
  - intros [Hp|Hp]; rewrite Hp; reflexivity.
  - intros v Hp. rewrite Hp. reflexivity.
  - reflexivity.
  - destruct (role_cases req) as [R | [R | R]]; rewrite R in G |- *;
      [discriminate G|now left|now right].
Qed.

(** Witness of [evidence_post_row]. *)
Lemma evidence_post_row_witness :
  exists row,
    snd (evidence_post true
           {| header_role := Some "analyst"; cookie_role := None;
              arg_role := None |} "INC-1"
           (Some (VObject [("object_uri", VString "gs://b/o");
                           ("object_type", VString "LOG")]%list))
           "u-1" "t" Inserted) = [row]%list /\
    e_evidence_id row = VString "u-1" /\
    e_object_type row = "log".
Proof.
  destruct (evidence_post_row true
              {| header_role := Some "analyst"; cookie_role := None;
                 arg_role := None |} "INC-1"
              (Some (VObject [("object_uri", VString "gs://b/o");
                              ("object_type", VString "LOG")]%list))
              "u-1" "t" Inserted (VString "u-1"))
    as (row & Hrow & _ & Hid & _).
  - reflexivity.
  - exists row. split; [exact Hrow|]. split; [exact Hid|].
    cbn in Hrow. inversion Hrow. reflexivity.
Defined.

End RbacFacts.

Module FeedbackFacts.
Import Feedback.

(** X19 -- Whatever the payload holds for a rating, the value stored lies
    between 1 and 5: an integer in that range is kept, one outside it is
    moved to the nearer bound, a value that [int()] refuses becomes 1, and a
    missing key becomes 3. *)
Theorem rating_range (int_of_string : string -> option Z)
    (field : option json) :
  1 <= rating int_of_string field <= 5 /\
  (forall n, field = Some (JInt n) ->
             rating int_of_string field = Z.max 1 (Z.min 5 n) /\
             (1 <= n <= 5 -> rating int_of_string field = n)) /\
  (forall v, field = Some v -> py_int int_of_string v = None ->
             rating int_of_string field = 1) /\
  (field = None -> rating int_of_string field = 3).
Proof.
  unfold rating, clamp_int. split; [lia|]. split; [|split].
  - intros n ->. cbn. split; lia.
  - intros v -> Hv. rewrite Hv. reflexivity.
  - intros ->. reflexivity.
Qed.

(** Witness of [rating_range]: a null rating is stored as 1, not as the
    default 3. *)
Lemma rating_range_witness :
  rating (fun _ => None) (Some JNull) = 1.
Proof.
  apply (rating_range (fun _ => None) (Some JNull)) with (v := JNull);
    reflexivity.
Defined.

(** X20 -- [clamp_int] with any bounds in order: the result is within them, and
    clamping a clamped value changes nothing. *)
Theorem clamp_int_bounds (int_of_string : string -> option Z)
    (v : json) (lo hi : Z) :
  lo <= hi ->
  lo <= clamp_int int_of_string v lo hi <= hi /\
  clamp_int int_of_string (JInt (clamp_int int_of_string v lo hi)) lo hi =
  clamp_int int_of_string v lo hi.
Proof.
  intros Hle. unfold clamp_int. cbn [py_int]. split; lia.
Qed.

(** Witness of [clamp_int_bounds]: a float is truncated, then clamped. *)
Lemma clamp_int_bounds_witness :
  1 <= clamp_int (fun _ => None) (JFloat (79 # 10)) 1 5 <= 5.
Proof.
  apply (clamp_int_bounds (fun _ => None) (JFloat (79 # 10)) 1 5). lia.
Defined.

End FeedbackFacts.

Module TrendsFacts.
Import Frame FrameFacts Trends.

(** X21 -- The mock series of [get_trends] covers the 31 days that end today, one
    point per day in order; the counts stay between 5 and 17 (the clamp at
    zero never acts), the risk scores between 0.5 and 0.9 and the resolution
    times between 4 and 18 hours. *)
Theorem mock_trends_shape (end_date : date) :
  map t_date (mock_trends end_date) = date_range (end_date - 30) end_date /\
  List.length (mock_trends end_date) = 31%nat /\
  forall p, In p (mock_trends end_date) ->
    5 <= t_incident_count p <= 17 /\
    t_incident_count p = 5 + ((t_date p - (end_date - 30)) mod 7) * 2 /\
    ((5 # 10) <= t_avg_risk_score p <= (9 # 10))%Q /\
    4 <= t_avg_resolution_time p <= 18.
Proof.
  split; [|split].
  - unfold mock_trends, date_range. rewrite map_map. cbn [t_date].
    replace (Z.to_nat (end_date - (end_date - 30) + 1)) with 31%nat by lia.
    reflexivity.
  - unfold mock_trends. now rewrite length_map, length_seq.
  - intros p Hp. unfold mock_trends in Hp. apply in_map_iff in Hp.
    destruct Hp as [k [<- Hk]]. apply in_seq in Hk.
    cbn [t_date t_incident_count t_avg_risk_score t_avg_resolution_time].
    pose proof (Z.mod_pos_bound (Z.of_nat k) 7 ltac:(lia)) as H7.
    pose proof (Z.mod_pos_bound (Z.of_nat k) 5 ltac:(lia)) as H5.
    pose proof (Z.mod_pos_bound (Z.of_nat k) 8 ltac:(lia)) as H8.
    split; [lia|]. split.
    + replace (end_date - 30 + Z.of_nat k - (end_date - 30)) with (Z.of_nat k)
        by lia. lia.
    + split; [|lia].
      assert (H0 : (0 <= inject_Z (Z.of_nat k mod 5))%Q)
        by (change 0%Q with (inject_Z 0); rewrite <- Zle_Qle; lia).
      assert (H4 : (inject_Z (Z.of_nat k mod 5) <= 4)%Q)
        by (change 4%Q with (inject_Z 4); rewrite <- Zle_Qle; lia).
      split; Lqa.lra.
Qed.

(** Witness of [mock_trends_shape]: the first day of the series. *)
Lemma mock_trends_shape_witness :
  5 <= t_incident_count {| t_date := 70; t_incident_count := 5;
                           t_avg_risk_score := (5 # 10) + inject_Z 0 * (1 # 10);
                           t_avg_resolution_time := 4 |} <= 17.
Proof.
  apply (proj2 (proj2 (mock_trends_shape 100))). now left.
Defined.

End TrendsFacts.

Module ForecastTrend.
Import Frame FrameFacts Forecast ForecastFacts.
Local Open Scope Q_scope.

Lemma round_half_even_mono x y :
  x <= y -> (round_half_even x <= round_half_even y)%Z.
Proof.
  intros Hxy.
  pose proof (Qfloor_resp_le _ _ Hxy) as Hf.
  pose proof (Qfloor_le x) as Hxl. pose proof (Qlt_floor x) as Hxu.
  pose proof (Qfloor_le y) as Hyl. pose proof (Qlt_floor y) as Hyu.
  rewrite inject_Z_plus in Hxu, Hyu. change (inject_Z 1) with 1 in Hxu, Hyu.
  unfold round_half_even.
  destruct (Z.eq_dec (Qfloor x) (Qfloor y)) as [E|E].
  - rewrite <- E in *.
    destruct (Qcompare (x - inject_Z (Qfloor x)) (1 # 2)) eqn:Ex;
      [apply Qeq_alt in Ex|apply Qlt_alt in Ex|apply Qgt_alt in Ex];
      (destruct (Qcompare (y - inject_Z (Qfloor x)) (1 # 2)) eqn:Ey;
       [apply Qeq_alt in Ey|apply Qlt_alt in Ey|apply Qgt_alt in Ey]);
      try (destruct (Z.even (Qfloor x)); lia); try lia;
      exfalso; Lqa.lra.
  - assert (Hlt : (Qfloor x + 1 <= Qfloor y)%Z) by lia.
    destruct (Qcompare (x - inject_Z (Qfloor x)) (1 # 2));
      destruct (Qcompare (y - inject_Z (Qfloor y)) (1 # 2));
      try destruct (Z.even (Qfloor x)); try destruct (Z.even (Qfloor y)); lia.
Qed.

Lemma py_round2_mono x y : x <= y -> py_round2 x <= py_round2 y.
Proof.
  intros Hxy. unfold py_round2, Qle. cbn.
  assert (H : (round_half_even (x * 100) <= round_half_even (y * 100))%Z).
  { apply round_half_even_mono. Lqa.lra. }
  lia.
Qed.

Lemma py_max_mono x y : x <= y -> py_max 0 x <= py_max 0 y.
Proof.
  intros Hxy. unfold py_max.
  destruct (Qlt_le_dec 0 x), (Qlt_le_dec 0 y); Lqa.lra.
Qed.

(** X9 -- Rounding and clamping keep the direction of the fitted line: with a
    slope that is not negative no day of the forecast is below the day
    before, and with a slope that is not positive none is above. *)
Theorem forecast_follows_slope (days : option Z) (now : date) (df : frame) :
  df <> [] ->
  exists slope intercept m r,
    fit (t_col (sort_values df)) (y_col (sort_values df)) =
      Ok (slope, intercept, m) /\
    forecast_incidents days now df = Ok r /\
    forall i j p q, (1 <= i <= j)%Z -> (j <= horizon days)%Z ->
      nth_error (r_forecast r) (Z.to_nat (i - 1)) = Some p ->
      nth_error (r_forecast r) (Z.to_nat (j - 1)) = Some q ->
      (0 <= slope -> p_predicted_incidents p <= p_predicted_incidents q) /\
      (slope <= 0 -> p_predicted_incidents q <= p_predicted_incidents p).
Proof.
  intros Hne.
  destruct (forecast_nonempty days now df Hne)
    as (slope & intercept & m & ld & Hfit & _ & Hres).
  exists slope, intercept, m. eexists. split; [exact Hfit|]. split; [exact Hres|].
  cbn [r_forecast]. intros i j p q Hij Hj Hp Hq.
  rewrite project_nth in Hp by lia. rewrite project_nth in Hq by lia.
  inversion Hp; inversion Hq; subst p q. cbn [p_predicted_incidents].
  set (st := (Z.of_nat (List.length (sort_values df)) - 1)%Z).
  assert (Ht : inject_Z (st + i) <= inject_Z (st + j))
    by (rewrite <- Zle_Qle; lia).
  split; intros Hs; apply py_round2_mono, py_max_mono.
  - assert (slope * inject_Z (st + i) <= slope * inject_Z (st + j)).
    { rewrite !(Qmult_comm slope). now apply Qmult_le_compat_r. }
    Lqa.lra.
  - assert (- slope * inject_Z (st + i) <= - slope * inject_Z (st + j)).
    { rewrite !(Qmult_comm (- slope)). apply Qmult_le_compat_r; [exact Ht|].
      Lqa.lra. }
    Lqa.lra.
Qed.

(** Witness of [forecast_follows_slope]. *)
Lemma forecast_follows_slope_witness :
  exists r, forecast_incidents (Some 3%Z) 100%Z [(10, 2); (11, 4)]%Z = Ok r.
Proof.
  destruct (forecast_follows_slope (Some 3%Z) 100%Z [(10, 2); (11, 4)]%Z)
    as (slope & intercept & m & r & _ & Hr & _); [discriminate|].
  exists r. exact Hr.
Defined.

End ForecastTrend.

